(** * BookTrip Lambda hook for Amazon Lex V2: a shallow embedding

    The development follows [lambda_function.py].  Python values are
    embedded as follows.

    - [str] is [string]; a character stands for the code point with the
      same number, so the embedding covers code points below 256.
    - [int] is [Z]; [float] is the primitive binary64 [float].
    - A Python exception is the [Raise] branch of [res].
    - A [dict] with arbitrary keys is a [gmap string _]; a dict with a
      fixed set of keys is a record, optional keys being [option] fields.
    - A function that falls off its end returns [None]: handlers have
      type [res (option response)]. *)

From Stdlib Require Import ZArith String Ascii List Bool Lia Floats.
From stdpp Require Import gmap strings list fin_maps.

Open Scope string_scope.
Open Scope Z_scope.

(** ** Exceptions *)

Inductive exn : Type :=
| ValueError
| KeyError
| TypeError
| OverflowError
| Exception (msg : string).

Inductive res (A : Type) : Type :=
| Ok (a : A)
| Raise (e : exn).

Arguments Ok {A} a.
Arguments Raise {A} e.

Definition res_bind {A B} (c : res A) (k : A → res B) : res B :=
  match c with
  | Ok a => k a
  | Raise e => Raise e
  end.

Notation "'let*' x := c 'in' k" := (res_bind c (fun x => k))
  (at level 10, x name, c at level 100, k at level 200).

Definition raises {A} (c : res A) : Prop := ∃ e, c = Raise e.

(** ** Strings *)

Definition ord (c : ascii) : Z := Z.of_N (N_of_ascii c).

Definition in_range (lo hi n : Z) : bool := (lo <=? n) && (n <=? hi).

(** [str.lower] on one code point below 256: the ASCII capitals and the
    Latin-1 capitals (all of U+00C0..U+00DE but the multiplication sign)
    move up by 32. *)
Definition lower_char (c : ascii) : ascii :=
  let n := ord c in
  if in_range 65 90 n || in_range 192 214 n || in_range 216 222 n
  then ascii_of_N (Z.to_N (n + 32))
  else c.

Fixpoint lower (s : string) : string :=
  match s with
  | EmptyString => EmptyString
  | String c s' => String (lower_char c) (lower s')
  end.

(** Truth value of an optional string: [None] and [''] are false. *)
Definition truthy (v : option string) : bool :=
  match v with
  | Some (String _ _) => true
  | _ => false
  end.

(** [x in l] for a list of strings. *)
Definition str_in (x : string) (l : list string) : bool :=
  bool_decide (x ∈ l).

(** [l.index(x)]: position of the first occurrence, [ValueError] when
    there is none. *)
Fixpoint index (l : list string) (x : string) : res Z :=
  match l with
  | [] => Raise ValueError
  | y :: l' =>
      if String.eqb y x then Ok 0
      else let* i := index l' x in Ok (i + 1)
  end.

(** ** Numbers *)

Inductive pynum : Type :=
| NInt (z : Z)
| NFloat (f : float).

(** Conversion of an [int] operand in mixed arithmetic: the nearest
    double, [OverflowError] beyond the largest finite one. *)
Definition float_of_int (z : Z) : res float :=
  let f := SF2Prim (binary_normalize 53 1024 z 0 false) in
  if PrimFloat.is_infinity f then Raise OverflowError else Ok f.

Definition py_add (a b : pynum) : res pynum :=
  match a, b with
  | NInt x, NInt y => Ok (NInt (x + y))
  | NInt x, NFloat g => let* f := float_of_int x in Ok (NFloat (PrimFloat.add f g))
  | NFloat f, NInt y => let* g := float_of_int y in Ok (NFloat (PrimFloat.add f g))
  | NFloat f, NFloat g => Ok (NFloat (PrimFloat.add f g))
  end.

Definition py_mul (a b : pynum) : res pynum :=
  match a, b with
  | NInt x, NInt y => Ok (NInt (x * y))
  | NInt x, NFloat g => let* f := float_of_int x in Ok (NFloat (PrimFloat.mul f g))
  | NFloat f, NInt y => let* g := float_of_int y in Ok (NFloat (PrimFloat.mul f g))
  | NFloat f, NFloat g => Ok (NFloat (PrimFloat.mul f g))
  end.

(** The literal [1.10]. *)
Definition float_1_10 : float := 0x1.199999999999ap+0%float.

(** *** [int(s)] for a string *)

Definition is_digit (c : ascii) : bool := in_range 48 57 (ord c).

(** White space skipped by [int] around the number. *)
Definition is_int_space (c : ascii) : bool :=
  let n := ord c in
  in_range 9 13 n || (n =? 32) || (n =? 133) || (n =? 160).

Fixpoint lstrip_space (s : string) : string :=
  match s with
  | String c s' => if is_int_space c then lstrip_space s' else s
  | EmptyString => EmptyString
  end.

(** The digits of a number, a single underscore being allowed between
    two digits.  [acc] is the value read so far, [n] the count of digits
    read so far, [prev_digit] tells whether the previous character was a
    digit.  The rest of the string must be white space. *)
Fixpoint int_digits (s : string) (acc : Z) (n : Z) (prev_digit : bool)
  : option (Z * Z) :=
  match s with
  | EmptyString => if prev_digit then Some (acc, n) else None
  | String c s' =>
      if is_digit c then int_digits s' (10 * acc + (ord c - 48)) (n + 1) true
      else if (ord c =? 95) && prev_digit then
        match s' with
        | String d _ => if is_digit d then int_digits s' acc n false else None
        | EmptyString => None
        end
      else if prev_digit && (match lstrip_space s with EmptyString => true | _ => false end)
      then Some (acc, n)
      else None
  end.

(** Default of [sys.get_int_max_str_digits()]. *)
Definition int_max_str_digits : Z := 4300.

Definition py_int (s : string) : res Z :=
  let s := lstrip_space s in
  let '(neg, s) :=
    match s with
    | String "-" s' => (true, s')
    | String "+" s' => (false, s')
    | _ => (false, s)
    end in
  match int_digits s 0 0 false with
  | Some (v, n) =>
      if int_max_str_digits <? n then Raise ValueError
      else Ok (if neg then - v else v)
  | None => Raise ValueError
  end.

(** ** Calendar dates ([datetime.date]) *)

Record date : Type := mk_date { year : Z; month : Z; day : Z }.

Definition is_leap (y : Z) : bool :=
  (y mod 4 =? 0) && (negb (y mod 100 =? 0) || (y mod 400 =? 0)).

Definition days_before_year (y : Z) : Z :=
  let y := y - 1 in y * 365 + y / 4 - y / 100 + y / 400.

Definition days_in_month_table : list Z :=
  [31; 28; 31; 30; 31; 30; 31; 31; 30; 31; 30; 31].

Definition days_before_month_table : list Z :=
  [0; 31; 59; 90; 120; 151; 181; 212; 243; 273; 304; 334].

Definition nth_month (table : list Z) (m : Z) : Z :=
  nth (Z.to_nat (m - 1)) table 0.

Definition days_in_month (y m : Z) : Z :=
  if (m =? 2) && is_leap y then 29 else nth_month days_in_month_table m.

Definition days_before_month (y m : Z) : Z :=
  nth_month days_before_month_table m + (if (2 <? m) && is_leap y then 1 else 0).

(** [date.toordinal()]: 1 for 0001-01-01. *)
Definition toordinal (d : date) : Z :=
  days_before_year (year d) + days_before_month (year d) (month d) + day d.

(** [date.fromordinal(n)]. *)
Definition fromordinal (n : Z) : date :=
  let n := n - 1 in
  let n400 := n / 146097 in
  let n := n mod 146097 in
  let y := n400 * 400 + 1 in
  let n100 := n / 36524 in
  let n := n mod 36524 in
  let n4 := n / 1461 in
  let n := n mod 1461 in
  let n1 := n / 365 in
  let n := n mod 365 in
  let y := y + n100 * 100 + n4 * 4 + n1 in
  if (n1 =? 4) || (n100 =? 4) then mk_date (y - 1) 12 31
  else
    let leapyear := (n1 =? 3) && (negb (n4 =? 24) || (n100 =? 3)) in
    let m := Z.shiftr (n + 50) 5 in
    let preceding :=
      nth_month days_before_month_table m + (if (2 <? m) && leapyear then 1 else 0) in
    if n <? preceding then
      let m := m - 1 in
      let preceding :=
        preceding - (nth_month days_in_month_table m
                     + (if (m =? 2) && leapyear then 1 else 0)) in
      mk_date y m (n - preceding + 1)
    else mk_date y m (n - preceding + 1).

(** The constructor [date(y, m, d)] checks its arguments. *)
Definition valid_date (y m d : Z) : bool :=
  in_range 1 9999 y && in_range 1 12 m && in_range 1 (days_in_month y m) d.

Definition make_date (y m d : Z) : res date :=
  if valid_date y m d then Ok (mk_date y m d) else Raise ValueError.

(** [a <= b] and [a < b] on dates compare (year, month, day). *)
Definition date_ltb (a b : date) : bool :=
  (year a <? year b)
  || ((year a =? year b)
      && ((month a <? month b) || ((month a =? month b) && (day a <? day b)))).

Definition date_eqb (a b : date) : bool :=
  (year a =? year b) && (month a =? month b) && (day a =? day b).

Definition date_leb (a b : date) : bool := date_ltb a b || date_eqb a b.

(** [d + datetime.timedelta(days=n)]: the [timedelta] is limited to
    999999999 days, the sum to the years 1..9999. *)
Definition max_ordinal : Z := 3652059.

Definition date_add_days (d : date) (n : Z) : res date :=
  if negb (in_range (-999999999) 999999999 n) then Raise OverflowError
  else
    let o := toordinal d + n in
    if in_range 1 max_ordinal o then Ok (fromordinal o) else Raise OverflowError.

(** *** [strptime(s, '%Y-%m-%d')]

    The format compiles to the regular expression
    [(\d\d\d\d)-(1[0-2]|0[1-9]|[1-9])-(3[01]|[12]\d|0[1-9]|[1-9]| [1-9])],
    which must consume the whole string; the fields then go through the
    [date] constructor. *)

Definition digit_val (c : ascii) : Z := ord c - 48.

Definition is_digit_in (lo hi : Z) (c : ascii) : bool :=
  is_digit c && in_range lo hi (digit_val c).

(** Month field, with the rest of the string. *)
Definition scan_month (s : string) : option (Z * string) :=
  match s with
  | String a (String b r) =>
      if (digit_val a =? 1) && is_digit_in 0 2 b then Some (10 + digit_val b, r)
      else if (digit_val a =? 0) && is_digit_in 1 9 b then Some (digit_val b, r)
      else if is_digit_in 1 9 a then Some (digit_val a, String b r)
      else None
  | String a r => if is_digit_in 1 9 a then Some (digit_val a, r) else None
  | EmptyString => None
  end.

(** Day field, with the rest of the string. *)
Definition scan_day (s : string) : option (Z * string) :=
  match s with
  | String a (String b r) =>
      if (digit_val a =? 3) && is_digit_in 0 1 b then Some (30 + digit_val b, r)
      else if is_digit_in 1 2 a && is_digit b then Some (10 * digit_val a + digit_val b, r)
      else if (digit_val a =? 0) && is_digit_in 1 9 b then Some (digit_val b, r)
      else if is_digit_in 1 9 a then Some (digit_val a, String b r)
      else if (ord a =? 32) && is_digit_in 1 9 b then Some (digit_val b, r)
      else None
  | String a r => if is_digit_in 1 9 a then Some (digit_val a, r) else None
  | EmptyString => None
  end.

Definition expect_dash (s : string) : option string :=
  match s with
  | String "-" r => Some r
  | _ => None
  end.

Definition scan_year (s : string) : option (Z * string) :=
  match s with
  | String a (String b (String c (String d r))) =>
      if is_digit a && is_digit b && is_digit c && is_digit d
      then Some (1000 * digit_val a + 100 * digit_val b + 10 * digit_val c + digit_val d, r)
      else None
  | _ => None
  end.

Definition match_Ymd (s : string) : option (Z * Z * Z) :=
  '(y, s) ← scan_year s;
  s ← expect_dash s;
  '(m, s) ← scan_month s;
  s ← expect_dash s;
  '(d, s) ← scan_day s;
  match s with
  | EmptyString => Some (y, m, d)
  | _ => None
  end.

Definition strptime_Ymd (s : string) : res date :=
  match match_Ymd s with
  | Some (y, m, d) => make_date y m d
  | None => Raise ValueError
  end.

(** *** [d.strftime('%Y-%m-%d')]

    Years below 1000 are padded to four digits here; the C library
    decides that padding on the host. *)

Definition digit_char (n : Z) : ascii := ascii_of_N (Z.to_N (48 + n mod 10)).

Definition two_digits (n : Z) : string :=
  String (digit_char (n / 10)) (String (digit_char n) EmptyString).

Definition four_digits (n : Z) : string :=
  String (digit_char (n / 1000)) (String (digit_char (n / 100)) (two_digits n)).

Definition strftime_Ymd (d : date) : string :=
  four_digits (year d) +:+ "-" +:+ two_digits (month d) +:+ "-" +:+ two_digits (day d).

(** ** The [dateutil] parser

    [dateutil.parser.parse] is a collaborator of the program, not part
    of it; the program uses the operations below.  [parse] raises
    [ValueError] on text it cannot read and may raise [OverflowError];
    [dt_ge a b] is [a >= b] on the parsed values, which raises
    [TypeError] between a value with a time zone and one without. *)

Class Dateutil : Type := {
  datetime : Type;
  parse : string → res datetime;
  dt_date : datetime → date;
  dt_ge : datetime → datetime → res bool
}.

(** An instance for running the program on concrete payloads.  On a
    string YYYY-MM-DD or YYYY/MM/DD (four, two and two digits) that
    names a day of the calendar, [dateutil] yields that day at midnight
    without time zone, and so does [numeric_date].  On any other string
    [numeric_date] answers [ValueError], which need not be what
    [dateutil] does there: the examples below apply it to strings of
    the first kind only, and the general theorems hold for every
    instance of [Dateutil]. *)
Definition scan_two (s : string) : option (Z * string) :=
  match s with
  | String a (String b r) =>
      if is_digit a && is_digit b then Some (10 * digit_val a + digit_val b, r) else None
  | _ => None
  end.

Definition expect_sep (sep : ascii) (s : string) : option string :=
  match s with
  | String c r => if Ascii.eqb c sep then Some r else None
  | EmptyString => None
  end.

Definition numeric_date (s : string) : res date :=
  let fields :=
    '(y, s) ← scan_year s;
    '(sep, s) ← match s with
                | String "-" r => Some ("-"%char, r)
                | String "/" r => Some ("/"%char, r)
                | _ => None
                end;
    '(m, s) ← scan_two s;
    s ← expect_sep sep s;
    '(d, s) ← scan_two s;
    match s with
    | EmptyString => Some (y, m, d)
    | _ => None
    end in
  match fields with
  | Some (y, m, d) => make_date y m d
  | None => Raise ValueError
  end.

Definition numeric_dateutil : Dateutil := {|
  datetime := date;
  parse := numeric_date;
  dt_date := fun d => d;
  dt_ge := fun a b => Ok (date_leb b a)
|}.

(** ** Payloads *)

(** A value of a session attribute or of a context attribute. *)
Inductive pyval : Type :=
| VStr (s : string)
| VNum (n : pynum).

Record slot_value : Type := {
  interpretedValue : option string;
  originalValue : option string;
  resolvedValues : list string
}.

Record slot : Type := {
  shape : option string;
  value : option slot_value
}.

Record time_to_live : Type := {
  timeToLiveInSeconds : Z;
  turnsToLive : Z
}.

(** An active context.  The platform sends string attributes; the
    contexts built by the handlers also hold numbers. *)
Record context (V : Type) : Type := {
  ctx_name : string;
  contextAttributes : gmap string V;
  timeToLive : time_to_live
}.

Arguments ctx_name {V} _.
Arguments contextAttributes {V} _.
Arguments timeToLive {V} _.

(** [slots] is [None] when the intent has no such key; a slot that is
    not filled is mapped to [None]. *)
Record intent : Type := {
  name : string;
  confirmationState : string;
  state : option string;
  slots : option (gmap string (option slot))
}.

Record session_state : Type := {
  activeContexts : option (list (context string));
  sessionAttributes : option (gmap string pyval);
  sessionState_intent : intent
}.

Record intent_request : Type := {
  sessionId : string;
  invocationSource : string;
  sessionState : session_state
}.

Record dialog_action : Type := {
  da_type : string;
  slotToElicit : option string
}.

Record response_state : Type := {
  r_activeContexts : option (list (context pyval));
  r_sessionAttributes : option (gmap string pyval);
  r_dialogAction : dialog_action;
  r_intent : intent
}.

Record message : Type := {
  contentType : string;
  content : string
}.

Record response : Type := {
  r_sessionState : response_state;
  r_messages : option (list message)
}.

(** ** Helpers that build all of the responses *)

Definition intent_context (active_contexts : gmap string pyval) : context pyval := {|
  ctx_name := "intentContext";
  contextAttributes := active_contexts;
  timeToLive := {| timeToLiveInSeconds := 600; turnsToLive := 1 |}
|}.

Definition elicit_slot (session_attributes active_contexts : gmap string pyval)
    (intent : intent) (slot_to_elicit : string) (message : string) : response := {|
  r_sessionState := {|
    r_activeContexts := Some [intent_context active_contexts];
    r_sessionAttributes := Some session_attributes;
    r_dialogAction := {| da_type := "ElicitSlot"; slotToElicit := Some slot_to_elicit |};
    r_intent := intent
  |};
  r_messages := None
|}.

(** A context of the request, as it is put in a response. *)
Definition context_out (c : context string) : context pyval := {|
  ctx_name := ctx_name c;
  contextAttributes := VStr <$> contextAttributes c;
  timeToLive := timeToLive c
|}.

Definition confirm_intent (active_contexts : context string)
    (session_attributes : gmap string pyval) (intent : intent) (message : string)
  : response := {|
  r_sessionState := {|
    r_activeContexts := Some [context_out active_contexts];
    r_sessionAttributes := Some session_attributes;
    r_dialogAction := {| da_type := "ConfirmIntent"; slotToElicit := None |};
    r_intent := intent
  |};
  r_messages := None
|}.

Definition close (session_attributes active_contexts : gmap string pyval)
    (fulfillment_state : string) (intent : intent) (message : string) : response := {|
  r_sessionState := {|
    r_activeContexts := Some [intent_context active_contexts];
    r_sessionAttributes := Some session_attributes;
    r_dialogAction := {| da_type := "Close"; slotToElicit := None |};
    r_intent := intent
  |};
  r_messages := Some [{| contentType := "PlainText"; content := message |}]
|}.

Definition delegate (session_attributes active_contexts : gmap string pyval)
    (intent : intent) (message : string) : response := {|
  r_sessionState := {|
    r_activeContexts := Some [intent_context active_contexts];
    r_sessionAttributes := Some session_attributes;
    r_dialogAction := {| da_type := "Delegate"; slotToElicit := None |};
    r_intent := intent
  |};
  r_messages := Some [{| contentType := "PlainText"; content := message |}]
|}.

Definition initial_message (intent_name : string) : response := {|
  r_sessionState := {|
    r_activeContexts := None;
    r_sessionAttributes := None;
    r_dialogAction := {|
      da_type := "ElicitSlot";
      slotToElicit :=
        Some (if String.eqb intent_name "BookHotel" then "Location" else "PickUpCity")
    |};
    r_intent := {|
      name := intent_name;
      confirmationState := "None";
      state := Some "InProgress";
      slots := None
    |}
  |};
  r_messages := None
|}.

(** ** Helper functions *)

Definition safe_int (n : option string) : res (option Z) :=
  match n with
  | Some s => let* z := py_int s in Ok (Some z)
  | None => Ok None
  end.

(** [value['value']['interpretedValue']]: a slot without either key
    raises [KeyError]. *)
Definition try_ex (v : option slot) : res (option string) :=
  match v with
  | Some sl =>
      match value sl with
      | Some sv =>
          match interpretedValue sv with
          | Some s => Ok (Some s)
          | None => Raise KeyError
          end
      | None => Raise KeyError
      end
  | None => Ok None
  end.

(** [slots[key]]: [KeyError] when the mapping has no such key. *)
Definition getitem {A} (m : gmap string A) (key : string) : res A :=
  match m !! key with
  | Some v => Ok v
  | None => Raise KeyError
  end.

(** The loop
    [for i in range(len(location)): cost += ord(location.lower()[i]) - 97].
    [lower] keeps the length, so the index is always in range. *)
Definition cost_step (lowered : string) (cost : Z) (i : nat) : Z :=
  match String.get i lowered with
  | Some c => cost + (ord c - 97)
  | None => cost
  end.

Definition location_cost (location : string) : Z :=
  foldl (cost_step (lower location)) 0 (seq 0 (String.length location)).

Definition car_types : list string :=
  ["economy"; "standard"; "midsize"; "full size"; "minivan"; "luxury"].

(** The rank the price is computed from: the type is replaced by
    [car_types[0]] when it is not, as written, in [car_types]. *)
Definition car_type_rank (car_type : string) : res Z :=
  let car_type :=
    if negb (str_in car_type car_types) then "economy" else car_type in
  index car_types (lower car_type).

Definition generate_car_price (location : string) (days age : Z) (car_type : string)
  : res pynum :=
  let base_location_cost := location_cost location in
  let age_multiplier := if age <? 25 then NFloat float_1_10 else NInt 1 in
  let* rank := car_type_rank car_type in
  let* extra := py_mul (NInt (rank * 50)) age_multiplier in
  let* per_day := py_add (NInt (100 + base_location_cost)) extra in
  py_mul (NInt days) per_day.

Definition room_types : list string := ["queen"; "king"; "deluxe"].

Definition generate_hotel_price (location : string) (nights : Z) (room_type : string)
  : res Z :=
  let cost_of_living := location_cost location in
  let* rank := index room_types (lower room_type) in
  Ok (nights * (100 + cost_of_living + (100 + rank))).

Definition isvalid_car_type (car_type : string) : bool :=
  str_in (lower car_type)
    ["economy"; "standard"; "midsize"; "full size"; "minivan"; "luxury";
     "economico"; "mediano"; "lujo"].

Definition valid_cities : list string :=
  ["nueva york"; "los angeles"; "chicago"; "houston"; "philadelphia"; "phoenix";
   "san antonio"; "san diego"; "dallas"; "san jose"; "austin"; "jacksonville";
   "san francisco"; "indianapolis"; "columbus"; "fort worth"; "charlotte";
   "detroit"; "el paso"; "seattle"; "denver"; "washington dc"; "memphis";
   "boston"; "nashville"; "baltimore"; "portland"].

Definition isvalid_city (city : string) : bool := str_in (lower city) valid_cities.

Definition isvalid_room_type (room_type : string) : bool :=
  str_in (lower room_type) room_types.

Record validation_result : Type := {
  isValid : bool;
  violatedSlot : option string;
  message_content : option string
}.

Definition build_validation_result (isvalid : bool) (violated_slot message : string)
  : validation_result :=
  {| isValid := isvalid; violatedSlot := Some violated_slot;
     message_content := Some message |}.

(** The result [{'isValid': True}]. *)
Definition valid_result : validation_result :=
  {| isValid := true; violatedSlot := None; message_content := None |}.

Section Program.

Context {DU : Dateutil}.

(** [datetime.date.today()]. *)
Variable today : date.

(** Only [ValueError] is caught. *)
Definition isvalid_date (d : string) : res bool :=
  match parse d with
  | Ok _ => Ok true
  | Raise ValueError => Ok false
  | Raise e => Raise e
  end.

Definition get_day_difference (later_date earlier_date : string) : res Z :=
  let* later_datetime := parse later_date in
  let* earlier_datetime := parse earlier_date in
  Ok (Z.abs (toordinal (dt_date later_datetime) - toordinal (dt_date earlier_datetime))).

Definition add_days (d : string) (number_of_days : Z) : res string :=
  let* dt := parse d in
  let* new_date := date_add_days (dt_date dt) number_of_days in
  Ok (strftime_Ymd new_date).

(** ** Slot-set validators *)

(** [try_ex(slots[key])]. *)
Definition slot_text (slots : gmap string (option slot)) (key : string)
  : res (option string) :=
  let* v := getitem slots key in try_ex v.

(** The string held by a variable known to be true. *)
Definition text (v : option string) : string := default "" v.

(** A step of a validator: [Some r] is [return r], [None] goes on. *)
Definition or_continue (step : res (option validation_result))
    (rest : res validation_result) : res validation_result :=
  let* o := step in
  match o with
  | Some r => Ok r
  | None => rest
  end.

Definition unsupported_city (city : string) : string :=
  "We currently do not support " +:+ city
  +:+ " as a valid destination.  Can you try a different city?".

Definition validate_book_car (slots : gmap string (option slot))
  : res validation_result :=
  let* pickup_city := slot_text slots "PickUpCity" in
  let* pickup_date := slot_text slots "PickUpDate" in
  let* return_date := slot_text slots "ReturnDate" in
  let* driver_age := (let* v := slot_text slots "DriverAge" in safe_int v) in
  let* car_type := slot_text slots "CarType" in
  if truthy pickup_city && negb (isvalid_city (text pickup_city)) then
    Ok (build_validation_result false "PickUpCity" (unsupported_city (text pickup_city)))
  else
  or_continue
    (if truthy pickup_date then
       let* ok := isvalid_date (text pickup_date) in
       if negb ok then
         Ok (Some (build_validation_result false "PickUpDate"
           "I did not understand your departure date.  When would you like to pick up your car rental?"))
       else
         let* d := strptime_Ymd (text pickup_date) in
         if date_leb d today then
           Ok (Some (build_validation_result false "PickUpDate"
             "Reservations must be scheduled at least one day in advance.  Can you try a different date?"))
         else Ok None
     else Ok (Some (build_validation_result false "PickUpDate" "Elicit PickUpDate")))
  (or_continue
    (if truthy return_date then
       let* ok := isvalid_date (text return_date) in
       if negb ok then
         Ok (Some (build_validation_result false "ReturnDate"
           "I did not understand your return date.  When would you like to return your car rental?"))
       else Ok None
     else Ok (Some (build_validation_result false "ReturnDate" "Elicit ReturnDate")))
  (or_continue
    (if truthy pickup_date && truthy return_date then
       let* p := parse (text pickup_date) in
       let* r := parse (text return_date) in
       let* ge := dt_ge p r in
       if ge then
         Ok (Some (build_validation_result false "ReturnDate"
           "Your return date must be after your pick up date.  Can you try a different return date?"))
       else
         let* span := get_day_difference (text pickup_date) (text return_date) in
         if 30 <? span then
           Ok (Some (build_validation_result false "ReturnDate"
             "You can reserve a car for up to thirty days.  Can you try a different return date?"))
         else Ok None
     else Ok None)
  (or_continue
    (match driver_age with
     | Some age =>
         if age <? 18 then
           Ok (Some (build_validation_result false "DriverAge"
             "Your driver must be at least eighteen to rent a car.  Can you provide the age of a different driver?"))
         else Ok None
     | None => Ok (Some (build_validation_result false "DriverAge" "Elicit DriverAge"))
     end)
  (or_continue
    (if truthy car_type then
       if negb (isvalid_car_type (text car_type)) then
         Ok (Some (build_validation_result false "CarType"
           "I did not recognize that model.  What type of car would you like to rent?  Popular cars are economy, midsize, or luxury"))
       else Ok None
     else Ok (Some (build_validation_result false "CarType" "Elicit CarType")))
  (Ok valid_result))))).

Definition validate_hotel (slots : gmap string (option slot))
  : res validation_result :=
  let* location := slot_text slots "Location" in
  let* checkin_date := slot_text slots "CheckInDate" in
  let* nights := (let* v := slot_text slots "Nights" in safe_int v) in
  let* room_type := slot_text slots "RoomType" in
  or_continue
    (match location with
     | Some city =>
         if negb (isvalid_city city) then
           Ok (Some (build_validation_result false "Location" (unsupported_city city)))
         else Ok None
     | None => Ok None
     end)
  (or_continue
    (match checkin_date with
     | Some d =>
         let* ok := isvalid_date d in
         if negb ok then
           Ok (Some (build_validation_result false "CheckInDate"
             "I did not understand your check in date.  When would you like to check in?"))
         else
           let* dd := strptime_Ymd d in
           if date_leb dd today then
             Ok (Some (build_validation_result false "CheckInDate"
               "Reservations must be scheduled at least one day in advance.  Can you try a different date?"))
           else Ok None
     | None => Ok (Some (build_validation_result false "CheckInDate" "Elicit CheckInDate"))
     end)
  (or_continue
    (match nights with
     | Some n =>
         if (n <? 1) || (30 <? n) then
           Ok (Some (build_validation_result false "Nights"
             "You can make a reservations from one to thirty nights.  How many nights would you like to stay for?"))
         else Ok None
     | None => Ok (Some (build_validation_result false "Nights" "Elicit Nights"))
     end)
  (or_continue
    (match room_type with
     | Some rt =>
         if negb (isvalid_room_type rt) then
           Ok (Some (build_validation_result false "RoomType"
             "I did not recognize that room type.  Would you like to stay in a queen, king, or deluxe room?"))
         else Ok None
     | None => Ok (Some (build_validation_result false "RoomType" "Elicit RoomType"))
     end)
  (Ok valid_result)))).

(** ** Functions that control the bot's behavior *)

(** [intent['slots']]. *)
Definition intent_slots (i : intent) : res (gmap string (option slot)) :=
  match slots i with
  | Some m => Ok m
  | None => Raise KeyError
  end.

Definition set_slots (i : intent) (m : gmap string (option slot)) : intent :=
  {| name := name i; confirmationState := confirmationState i;
     state := state i; slots := Some m |}.

(** [intent['confirmationState'] = "Confirmed"; intent['state'] = "Fulfilled"]. *)
Definition fulfilled (i : intent) : intent :=
  {| name := name i; confirmationState := "Confirmed";
     state := Some "Fulfilled"; slots := slots i |}.

(** Truth value of an optional integer: [None] and [0] are false. *)
Definition truthy_int (v : option Z) : bool :=
  match v with
  | Some n => negb (n =? 0)
  | None => false
  end.

Definition hotel_success_message : string :=
  "Tu reservaci" +:+ String "243" "n de hotel ha quedado registrada. "
  +:+ String "191" "Te puedo ayudar con algo m" +:+ String "225" "s?".

Definition car_success_message : string :=
  "Listo, tu reservaci" +:+ String "243" "n est" +:+ String "225"
  " completa. Ha sido un placer ayudarte. :D".

(** [session_attributes['currentReservationPrice'] = price]. *)
Definition with_price (price : pynum) (session_attributes : gmap string pyval)
  : gmap string pyval :=
  <["currentReservationPrice" := VNum price]> session_attributes.

(** The session attributes the hotel handler starts from. *)
Definition hotel_session (session_id : string) : gmap string pyval :=
  <["sessionId" := VStr session_id]> ∅.

(** The context attributes the hotel handler records. *)
Definition hotel_context (location room_type checkin_date : string) (nights : Z)
  : gmap string pyval :=
  <["Nights" := VNum (NInt nights)]>
    (<["CheckInDate" := VStr checkin_date]>
       (<["RoomType" := VStr room_type]>
          (<["Location" := VStr location]>
             (<["ReservationType" := VStr "Hotel"]> ∅)))).

Definition book_hotel (intent_request : intent_request) : res (option response) :=
  let intent := sessionState_intent (sessionState intent_request) in
  let session_attributes := hotel_session (sessionId intent_request) in
  let active_contexts : gmap string pyval := ∅ in
  let confirmation_status := confirmationState intent in
  let* slots := intent_slots intent in
  let* validation_result := validate_hotel slots in
  if negb (isValid validation_result) then
    match violatedSlot validation_result, message_content validation_result with
    | Some violated, Some msg =>
        let slots := <[violated := None]> slots in
        Ok (Some (elicit_slot session_attributes active_contexts
                    (set_slots intent slots) violated msg))
    | _, _ => Raise KeyError
    end
  else
    let* location := slot_text slots "Location" in
    let* checkin_date := slot_text slots "CheckInDate" in
    let* nights := (let* v := slot_text slots "Nights" in safe_int v) in
    let* room_type := slot_text slots "RoomType" in
    if truthy location && truthy checkin_date && truthy_int nights && truthy room_type then
      let active_contexts :=
        hotel_context (text location) (text room_type) (text checkin_date)
          (default 0 nights) in
      let* price :=
        generate_hotel_price (text location) (default 0 nights) (text room_type) in
      let session_attributes := with_price (NInt price) session_attributes in
      if String.eqb confirmation_status "None" then
        Ok (Some (delegate session_attributes active_contexts intent
                    "Confirm hotel reservation"))
      else if String.eqb confirmation_status "Confirmed" then
        Ok (Some (close session_attributes active_contexts "Fulfilled"
                    (fulfilled intent) hotel_success_message))
      else Ok None
    else Ok None.

Definition book_car (intent_request : intent_request) : res (option response) :=
  let* slots := intent_slots (sessionState_intent (sessionState intent_request)) in
  let* pickup_city := slot_text slots "PickUpCity" in
  let* pickup_date := slot_text slots "PickUpDate" in
  let* return_date := slot_text slots "ReturnDate" in
  let* driver_age := slot_text slots "DriverAge" in
  let* car_type := slot_text slots "CarType" in
  let confirmation_status :=
    confirmationState (sessionState_intent (sessionState intent_request)) in
  let session_attributes : gmap string pyval :=
    default ∅ (sessionAttributes (sessionState intent_request)) in
  let intent := sessionState_intent (sessionState intent_request) in
  let active_contexts : gmap string pyval := ∅ in
  (* The dialog code hook: [Some r] is [return r], [None] goes on. *)
  let* hook :=
    if String.eqb (invocationSource intent_request) "DialogCodeHook" then
      let* validation_result := validate_book_car slots in
      if negb (isValid validation_result) then
        match violatedSlot validation_result, message_content validation_result with
        | Some violated, Some msg =>
            (* [slots] still names the mapping the request came with: when
               the intent is given a fresh empty mapping, the assignment
               [slots[violated] = None] does not reach the intent returned. *)
            if String.eqb violated "DriverAge" && String.eqb confirmation_status "Denied"
            then
              Ok (Some (elicit_slot session_attributes active_contexts
                          (set_slots intent ∅) "PickUpCity" msg))
            else
              Ok (Some (elicit_slot session_attributes active_contexts
                          (set_slots intent (<[violated := None]> slots)) violated msg))
        | _, _ => Raise KeyError
        end
      else Ok None
    else Ok None in
  match hook with
  | Some r => Ok (Some r)
  | None =>
      if truthy pickup_city && truthy pickup_date && truthy return_date
         && truthy driver_age && truthy car_type then
        let* days := get_day_difference (text pickup_date) (text return_date) in
        let* age := py_int (text driver_age) in
        let* price := generate_car_price (text pickup_city) days age (text car_type) in
        let session_attributes := with_price price session_attributes in
        if String.eqb confirmation_status "Denied" then
          Ok (Some (delegate session_attributes active_contexts intent
                      "Confirm hotel reservation"))
        else if String.eqb confirmation_status "None" then
          Ok (Some (delegate session_attributes active_contexts intent
                      "Confirm hotel reservation"))
        else if String.eqb confirmation_status "Confirmed" then
          Ok (Some (close session_attributes active_contexts "Fulfilled"
                      (fulfilled intent) car_success_message))
        else Ok None
      else Ok None
  end.

(** ** Intents *)

Definition scalar_slot (v : string) : slot := {|
  shape := Some "Scalar";
  value := Some {| interpretedValue := Some v; originalValue := Some v;
                   resolvedValues := [v] |}
|}.

Definition carryover_message : string :=
  "Indicame si la reservacion de auto es para {PickUpCity}, empezando {PickUpDate} y terminando {ReturnDate}".

Definition dispatch (intent_request : intent_request) : res (option response) :=
  let* slots := intent_slots (sessionState_intent (sessionState intent_request)) in
  let location := default None (slots !! "Location") in
  let pickup_city := default None (slots !! "PickUpCity") in
  let intent_name := name (sessionState_intent (sessionState intent_request)) in
  if bool_decide (is_Some location) || bool_decide (is_Some pickup_city) then
    if String.eqb intent_name "BookHotel" then book_hotel intent_request
    else if String.eqb intent_name "BookCar" then book_car intent_request
    else Raise (Exception ("Intent with name " +:+ intent_name +:+ " not supported"))
  else
    match activeContexts (sessionState intent_request) with
    | Some (active_contexts :: _) =>
        let* session_attributes :=
          match sessionAttributes (sessionState intent_request) with
          | Some a => Ok a
          | None => Raise KeyError
          end in
        let intent := sessionState_intent (sessionState intent_request) in
        let* checkin_date := getitem (contextAttributes active_contexts) "CheckInDate" in
        let* nights_text := getitem (contextAttributes active_contexts) "Nights" in
        let* nights := py_int nights_text in
        let* return_date := add_days checkin_date nights in
        let active_contexts := {|
          ctx_name := ctx_name active_contexts;
          contextAttributes := contextAttributes active_contexts;
          timeToLive := {|
            timeToLiveInSeconds := timeToLiveInSeconds (timeToLive active_contexts);
            turnsToLive := 20
          |}
        |} in
        let* city := getitem (contextAttributes active_contexts) "Location" in
        let slots : gmap string (option slot) :=
          <["ReturnDate" := Some (scalar_slot return_date)]>
            (<["PickUpDate" := Some (scalar_slot checkin_date)]>
               (<["PickUpCity" := Some (scalar_slot city)]> ∅)) in
        Ok (Some (confirm_intent active_contexts session_attributes
                    (set_slots intent slots) carryover_message))
    | _ => Ok (Some (initial_message intent_name))
    end.

(** ** Main handler *)

Definition lambda_handler (event : intent_request) : res (option response) :=
  dispatch event.

End Program.

(** ** The price of a hotel as the specification words it

    [nights × (100 + location_digest(location) + 100 + room_type_rank)],
    where [location_digest] sums (lowercased character code − 'a' code)
    over all characters of the location. *)

Fixpoint location_digest (location : string) : Z :=
  match location with
  | EmptyString => 0
  | String c rest => (ord (lower_char c) - ord "a") + location_digest rest
  end.

Definition hotel_price (location : string) (nights : Z) (room_type : string) : res Z :=
  let* room_type_rank := index room_types (lower room_type) in
  Ok (nights * (100 + location_digest location + 100 + room_type_rank)).

(** Sum of (character code − 97) over a string. *)
Fixpoint char_sum (t : string) : Z :=
  match t with
  | EmptyString => 0
  | String c r => (ord c - 97) + char_sum r
  end.

(** ** Dates that exist *)

Definition valid (d : date) : Prop := valid_date (year d) (month d) (day d) = true.

(** ** Sample payloads *)

Definition filled (v : string) : option slot := Some (scalar_slot v).

Definition hotel_slots (location checkin_date nights room_type : option slot)
  : gmap string (option slot) :=
  <["Location" := location]>
    (<["CheckInDate" := checkin_date]>
       (<["Nights" := nights]> (<["RoomType" := room_type]> ∅))).

Definition car_slots (pickup_city pickup_date return_date driver_age car_type : option slot)
  : gmap string (option slot) :=
  <["PickUpCity" := pickup_city]>
    (<["PickUpDate" := pickup_date]>
       (<["ReturnDate" := return_date]>
          (<["DriverAge" := driver_age]> (<["CarType" := car_type]> ∅)))).

Definition turn (intent_name confirmation source : string)
    (m : gmap string (option slot)) (contexts : option (list (context string)))
    (attributes : option (gmap string pyval)) : intent_request := {|
  sessionId := "session-1";
  invocationSource := source;
  sessionState := {|
    activeContexts := contexts;
    sessionAttributes := attributes;
    sessionState_intent := {|
      name := intent_name;
      confirmationState := confirmation;
      state := Some "InProgress";
      slots := Some m
    |}
  |}
|}.

Definition sample_today : date := mk_date 2024 4 30.

Definition sample_attributes : gmap string pyval := <["channel" := VStr "web"]> ∅.

(** A hotel turn with every slot filled and valid. *)
Definition sample_hotel_turn (confirmation : string) : intent_request :=
  turn "BookHotel" confirmation "DialogCodeHook"
    (hotel_slots (filled "Chicago") (filled "2024-05-01") (filled "3") (filled "King"))
    None (Some sample_attributes).

(** A hotel turn whose check-in date is in the form YYYY/MM/DD. *)
Definition slashed_date_slots : gmap string (option slot) :=
  hotel_slots (filled "Chicago") (filled "2030/05/01") (filled "3") (filled "King").

(** A hotel turn with no slot filled but the location. *)
Definition sample_hotel_first_turn : intent_request :=
  turn "BookHotel" "None" "DialogCodeHook"
    (hotel_slots (filled "Chicago") None None None) None (Some sample_attributes).

(** A hotel turn that asks for a city the bot does not serve. *)
Definition unsupported_hotel_turn : intent_request :=
  turn "BookHotel" "None" "DialogCodeHook"
    (hotel_slots (filled "Atlantis") None None None) None (Some sample_attributes).

(** Car turns of a driver aged 17. *)
Definition sample_car_turn_17 (city : string) (source : string) : intent_request :=
  turn "BookCar" "None" source
    (car_slots (filled city) (filled "2024-05-01") (filled "2024-05-05")
       (filled "17") (filled "luxury"))
    None (Some sample_attributes).

(** A car turn with every slot filled and valid. *)
Definition sample_car_turn (confirmation : string) : intent_request :=
  turn "BookCar" confirmation "DialogCodeHook"
    (car_slots (filled "Chicago") (filled "2024-05-01") (filled "2024-05-05")
       (filled "30") (filled "luxury"))
    None (Some sample_attributes).

(** Car slots whose return date is before the pickup date. *)
Definition backwards_car_slots (city : string) : gmap string (option slot) :=
  car_slots (filled city) (filled "2024-05-10") (filled "2024-05-01")
    (filled "17") (filled "spaceship").

(** A turn of an intent the bot does not have. *)
Definition foreign_turn (m : gmap string (option slot)) : intent_request :=
  turn "OrderPizza" "None" "DialogCodeHook" m None (Some ∅).

(** The directives these two turns get. *)
Definition sample_hotel_delegate : response :=
  delegate (with_price (NInt 720) (hotel_session "session-1"))
    (hotel_context "Chicago" "King" "2024-05-01" 3)
    (sessionState_intent (sessionState (sample_hotel_turn "None")))
    "Confirm hotel reservation".

Definition sample_car_close : response :=
  close (with_price (NInt 1556) sample_attributes) ∅ "Fulfilled"
    (fulfilled (sessionState_intent (sessionState (sample_car_turn "Confirmed"))))
    car_success_message.

(** The context left by a hotel booking, and the first turn of a car
    booking that carries it. *)
Definition boston_context : context string := {|
  ctx_name := "intentContext";
  contextAttributes :=
    <["Location" := "Boston"]>
      (<["CheckInDate" := "2024-05-01"]> (<["Nights" := "4"]> ∅));
  timeToLive := {| timeToLiveInSeconds := 600; turnsToLive := 1 |}
|}.

Definition carryover_turn : intent_request :=
  turn "BookCar" "None" "DialogCodeHook" ∅ (Some [boston_context])
    (Some sample_attributes).

(** ** Vocabulary of the claims *)

(** A verdict that is not [isValid] names a slot and carries a message. *)
Definition names_slot (vr : validation_result) : Prop :=
  isValid vr = false ∧ ∃ violated msg,
    violatedSlot vr = Some violated ∧ message_content vr = Some msg.

(** The validator reports [violated] as the violated slot. *)
Definition reports (r : res validation_result) (violated : string) : Prop :=
  ∃ vr, r = Ok vr ∧ isValid vr = false ∧ violatedSlot vr = Some violated.

(** The handler answers with an ElicitSlot directive for [slot_name]. *)
Definition elicits (r : res (option response)) (slot_name : string) : Prop :=
  ∃ resp,
    r = Ok (Some resp)
    ∧ r_dialogAction (r_sessionState resp)
      = {| da_type := "ElicitSlot"; slotToElicit := Some slot_name |}.

(** The response has [text] among its messages. *)
Definition carries_message (resp : response) (text : string) : Prop :=
  ∃ l, r_messages resp = Some l ∧ ∃ x, x ∈ l ∧ content x = text.

(** The slot [key] of the intent returned is cleared. *)
Definition cleared (resp : response) (key : string) : Prop :=
  ∃ m, slots (r_intent (r_sessionState resp)) = Some m ∧ m !! key = Some None.

(** * Properties *)

(** ** Calendar *)

Lemma days_before_year_succ y :
  days_before_year (y + 1) = days_before_year y + 365 + (if is_leap y then 1 else 0).
Proof.
  unfold days_before_year, is_leap.
  replace (y + 1 - 1) with y by lia.
  destruct (Z.eqb_spec (y mod 4) 0), (Z.eqb_spec (y mod 100) 0),
    (Z.eqb_spec (y mod 400) 0); simpl; Z.div_mod_to_equations; lia.
Qed.

Lemma days_before_year_mono a b : a ≤ b → days_before_year a ≤ days_before_year b.
Proof. unfold days_before_year. intros H. Z.div_mod_to_equations. lia. Qed.

Lemma month_cases m :
  1 ≤ m ≤ 12 →
  m = 1 ∨ m = 2 ∨ m = 3 ∨ m = 4 ∨ m = 5 ∨ m = 6 ∨ m = 7 ∨ m = 8 ∨ m = 9
  ∨ m = 10 ∨ m = 11 ∨ m = 12.
Proof. lia. Qed.

Ltac month_split H :=
  apply month_cases in H;
  repeat (destruct H as [H | H]; [subst | ]); [.. | subst].

(** Evaluate the table lookups and the tests on a literal month. *)
Ltac eval_month :=
  repeat match goal with
    | |- context [nth_month ?t ?m] =>
        let v := eval vm_compute in (nth_month t m) in
        change (nth_month t m) with v
    | |- context [Z.eqb ?m 2] =>
        let v := eval vm_compute in (Z.eqb m 2) in change (Z.eqb m 2) with v
    | |- context [Z.ltb 2 ?m] =>
        let v := eval vm_compute in (Z.ltb 2 m) in change (Z.ltb 2 m) with v
    end;
  cbn [andb].

Lemma valid_inv d :
  valid d →
  1 ≤ year d ≤ 9999 ∧ 1 ≤ month d ≤ 12 ∧ 1 ≤ day d ≤ days_in_month (year d) (month d).
Proof. unfold valid, valid_date, in_range. lia. Qed.

(** The day of the year lies within the year. *)
Lemma day_of_year_bound y m d :
  1 ≤ m ≤ 12 → 1 ≤ d ≤ days_in_month y m →
  1 ≤ days_before_month y m + d ≤ 365 + (if is_leap y then 1 else 0).
Proof.
  intros Hm. unfold days_in_month, days_before_month.
  month_split Hm; destruct (is_leap y); eval_month; lia.
Qed.

(** Within one year the day of the year follows (month, day). *)
Lemma day_of_year_lt y m1 d1 m2 d2 :
  1 ≤ m1 ≤ 12 → 1 ≤ m2 ≤ 12 →
  1 ≤ d1 ≤ days_in_month y m1 → 1 ≤ d2 ≤ days_in_month y m2 →
  m1 < m2 →
  days_before_month y m1 + d1 < days_before_month y m2 + d2.
Proof.
  intros H1 H2. unfold days_in_month, days_before_month.
  month_split H1; month_split H2; destruct (is_leap y); eval_month; lia.
Qed.

Lemma toordinal_lt a b :
  valid a → valid b → date_ltb a b = true → toordinal a < toordinal b.
Proof.
  intros (Hy1 & Hm1 & Hd1)%valid_inv (Hy2 & Hm2 & Hd2)%valid_inv.
  unfold date_ltb, toordinal. intros H.
  destruct (Z.ltb_spec (year a) (year b)) as [Hlt | Hge].
  - pose proof (day_of_year_bound _ _ _ Hm1 Hd1) as B1.
    pose proof (day_of_year_bound _ _ _ Hm2 Hd2) as B2.
    pose proof (days_before_year_succ (year a)) as S1.
    pose proof (days_before_year_mono (year a + 1) (year b) ltac:(lia)).
    lia.
  - simpl in H. apply andb_true_iff in H as [Hy H].
    apply Z.eqb_eq in Hy. rewrite Hy in *.
    destruct (Z.ltb_spec (month a) (month b)) as [Hm | Hm].
    + pose proof (day_of_year_lt _ _ _ _ _ Hm1 Hm2 Hd1 Hd2 Hm). lia.
    + simpl in H. apply andb_true_iff in H as [He Hd].
      apply Z.eqb_eq in He. rewrite He. lia.
Qed.

Lemma date_eqb_eq a b : date_eqb a b = true → a = b.
Proof.
  unfold date_eqb. destruct a, b; simpl. intros H.
  repeat (apply andb_true_iff in H as [H ?]). f_equal; lia.
Qed.

Lemma toordinal_le a b :
  valid a → valid b → date_leb a b = true → toordinal a ≤ toordinal b.
Proof.
  intros Ha Hb. unfold date_leb. intros [H | H]%orb_true_iff.
  - pose proof (toordinal_lt a b Ha Hb H). lia.
  - apply date_eqb_eq in H. subst. lia.
Qed.

(** A date whose ordinal is the next one is not [<=] the earlier date. *)
Lemma next_day_after a b :
  valid a → valid b → toordinal b = toordinal a + 1 → date_leb b a = false.
Proof.
  intros Ha Hb H. destruct (date_leb b a) eqn:E; [ | done].
  pose proof (toordinal_le b a Hb Ha E). lia.
Qed.

Lemma make_date_valid y m d dd : make_date y m d = Ok dd → valid dd.
Proof.
  unfold make_date, valid. destruct (valid_date y m d) eqn:E; [ | done].
  by intros [= <-].
Qed.

Lemma strptime_valid s d : strptime_Ymd s = Ok d → valid d.
Proof.
  unfold strptime_Ymd. destruct (match_Ymd s) as [[[y m] dd] | ]; [ | done].
  apply make_date_valid.
Qed.

(** ** Strings and prices *)

Lemma lower_length s : String.length (lower s) = String.length s.
Proof. induction s as [ | c s IH]; simpl; congruence. Qed.

(** The indexed loop of the source adds up the characters of [t]. *)
Lemma cost_loop_shift c t l acc :
  foldl (cost_step (String c t)) acc (S <$> l) = foldl (cost_step t) acc l.
Proof. revert acc. induction l as [ | i l IH]; intros acc; simpl; [done | apply IH]. Qed.

Lemma cost_loop_sum t acc :
  foldl (cost_step t) acc (seq 0 (String.length t)) = acc + char_sum t.
Proof.
  revert acc. induction t as [ | c t IH]; intros acc.
  - simpl. lia.
  - cbn [String.length seq foldl]. rewrite <- seq_shift.
    change (map S ?l) with (S <$> l).
    rewrite cost_loop_shift, IH. unfold cost_step at 1. cbn [String.get char_sum]. lia.
Qed.

Lemma char_sum_lower s : char_sum (lower s) = location_digest s.
Proof.
  induction s as [ | c s IH]; [done | ].
  cbn [lower char_sum location_digest]. rewrite IH. reflexivity.
Qed.

Lemma location_cost_digest location : location_cost location = location_digest location.
Proof.
  unfold location_cost. rewrite <- (lower_length location), cost_loop_sum, char_sum_lower.
  lia.
Qed.

(** The source computes the price the specification describes. *)
Lemma generate_hotel_price_spec location nights room_type :
  generate_hotel_price location nights room_type = hotel_price location nights room_type.
Proof.
  unfold generate_hotel_price, hotel_price. rewrite location_cost_digest.
  destruct (index room_types (lower room_type)) as [rank | e]; simpl; [ | done].
  f_equal. lia.
Qed.

Lemma index_found l x : str_in x l = true → ∃ i, index l x = Ok i.
Proof.
  unfold str_in. intros H%bool_decide_eq_true.
  induction l as [ | y l IH]; [by apply elem_of_nil in H | ].
  simpl. destruct (String.eqb_spec y x) as [-> | Hne]; [by eexists | ].
  apply elem_of_cons in H as [-> | H]; [done | ].
  destruct (IH H) as [i ->]. by eexists.
Qed.

(** ** Reading the validators *)

Lemma or_continue_inv step rest v :
  or_continue step rest = Ok v →
  step = Ok (Some v) ∨ (step = Ok None ∧ rest = Ok v).
Proof.
  unfold or_continue. destruct step as [[r | ] | e]; simpl; [ | by right | done].
  intros [= ->]. by left.
Qed.

(** Peel one [let*] off a hypothesis [H : res_bind c k = Ok _]. *)
Tactic Notation "bind_inv" hyp(H) "as" ident(x) ident(E) :=
  match type of H with
  | res_bind ?c _ = _ =>
      destruct c as [x | ] eqn:E; cbn [res_bind] in H; [ | discriminate H]
  end.

(** Split on every test in [H], dropping the impossible branches. *)
Ltac break_in H :=
  unfold res_bind in H;
  repeat match type of H with
    | context [match ?x with _ => _ end] =>
        destruct x eqn:?; try discriminate H
    end.

Lemma safe_int_some v n :
  safe_int v = Ok (Some n) → ∃ s, v = Some s ∧ py_int s = Ok n.
Proof.
  destruct v as [s | ]; simpl; [ | done].
  destruct (py_int s) eqn:E; simpl; [ | done]. intros [= ->]. eauto.
Qed.

Lemma isvalid_city_truthy c : isvalid_city c = true → truthy (Some c) = true.
Proof. by destruct c. Qed.

Lemma isvalid_room_type_truthy rt : isvalid_room_type rt = true → truthy (Some rt) = true.
Proof. by destruct rt. Qed.

Lemma strptime_truthy s d : strptime_Ymd s = Ok d → truthy (Some s) = true.
Proof. by destruct s. Qed.

Section Hotel.

Context {DU : Dateutil}.
Variable today : date.

(** What the validator has checked when it answers [isValid]. *)
Lemma validate_hotel_valid_inv m vr :
  validate_hotel today m = Ok vr → isValid vr = true →
  ∃ loc cin ntext n rt d,
    slot_text m "Location" = Ok loc
    ∧ slot_text m "CheckInDate" = Ok (Some cin)
    ∧ slot_text m "Nights" = Ok (Some ntext)
    ∧ py_int ntext = Ok n
    ∧ slot_text m "RoomType" = Ok (Some rt)
    ∧ (∀ c, loc = Some c → isvalid_city c = true)
    ∧ isvalid_date cin = Ok true
    ∧ strptime_Ymd cin = Ok d
    ∧ date_leb d today = false
    ∧ 1 ≤ n ≤ 30
    ∧ isvalid_room_type rt = true.
Proof.
  intros H Hv. unfold validate_hotel in H.
  bind_inv H as loc Eloc. bind_inv H as cin Ecin. bind_inv H as nights En.
  bind_inv En as ntext Ent. bind_inv H as rt Ert.
  apply or_continue_inv in H as [H | [H1 H]].
  { break_in H; injection H as <-; discriminate Hv. }
  apply or_continue_inv in H as [H | [H2 H]].
  { break_in H; injection H as <-; discriminate Hv. }
  apply or_continue_inv in H as [H | [H3 H]].
  { break_in H; injection H as <-; discriminate Hv. }
  apply or_continue_inv in H as [H | [H4 H]].
  { break_in H; injection H as <-; discriminate Hv. }
  clear H Hv.
  destruct cin as [cin | ]; [ | discriminate H2].
  destruct nights as [n | ]; [ | discriminate H3].
  destruct rt as [rt | ]; [ | discriminate H4].
  apply safe_int_some in En as (s & -> & Hn).
  destruct (isvalid_date cin) as [ok | ] eqn:Eok; cbn [res_bind] in H2; [ | discriminate H2].
  destruct ok; cbn [negb] in H2; [ | discriminate H2].
  destruct (strptime_Ymd cin) as [d | ] eqn:Ed; cbn [res_bind] in H2; [ | discriminate H2].
  destruct (date_leb d today) eqn:Eleb; [discriminate H2 | ].
  destruct ((n <? 1) || (30 <? n)) eqn:Erange; [discriminate H3 | ].
  destruct (isvalid_room_type rt) eqn:Ert'; [ | discriminate H4].
  exists loc, cin, s, n, rt, d. repeat split; try done; try lia.
  intros c ->. by destruct (isvalid_city c).
Qed.

(** The validator accepts slots that pass every check. *)
Lemma validate_hotel_ok m loc cin ntext n rt d :
  slot_text m "Location" = Ok loc →
  slot_text m "CheckInDate" = Ok (Some cin) →
  slot_text m "Nights" = Ok (Some ntext) →
  py_int ntext = Ok n →
  slot_text m "RoomType" = Ok (Some rt) →
  (∀ c, loc = Some c → isvalid_city c = true) →
  isvalid_date cin = Ok true →
  strptime_Ymd cin = Ok d →
  date_leb d today = false →
  1 ≤ n ≤ 30 →
  isvalid_room_type rt = true →
  validate_hotel today m = Ok valid_result.
Proof.
  intros Hloc Hcin Hnt Hn Hrt Hcity Hok Hd Hleb Hrange Hroom.
  unfold validate_hotel. rewrite Hloc, Hcin, Hnt, Hrt. cbn [res_bind safe_int].
  rewrite Hn. cbn [res_bind or_continue].
  assert (match loc with
          | Some city =>
              if negb (isvalid_city city)
              then Ok (Some (build_validation_result false "Location"
                               (unsupported_city city)))
              else Ok None
          | None => Ok None
          end = Ok None) as ->.
  { destruct loc as [c | ]; [ | done]. by rewrite (Hcity c eq_refl). }
  cbn [res_bind or_continue]. rewrite Hok. cbn [res_bind negb]. rewrite Hd.
  cbn [res_bind]. rewrite Hleb. cbn [res_bind].
  replace ((n <? 1) || (30 <? n)) with false by lia.
  cbn [res_bind]. rewrite Hroom. reflexivity.
Qed.

(** The handler on slots that are all filled and pass every check. *)
Lemma book_hotel_valid req m loc cin ntext n rt d :
  slots (sessionState_intent (sessionState req)) = Some m →
  slot_text m "Location" = Ok (Some loc) →
  slot_text m "CheckInDate" = Ok (Some cin) →
  slot_text m "Nights" = Ok (Some ntext) →
  py_int ntext = Ok n →
  slot_text m "RoomType" = Ok (Some rt) →
  isvalid_city loc = true →
  isvalid_date cin = Ok true →
  strptime_Ymd cin = Ok d →
  date_leb d today = false →
  1 ≤ n ≤ 30 →
  isvalid_room_type rt = true →
  ∃ price,
    generate_hotel_price loc n rt = Ok price
    ∧ book_hotel today req =
        let intent := sessionState_intent (sessionState req) in
        let session_attributes := with_price (NInt price) (hotel_session (sessionId req)) in
        let active_contexts := hotel_context loc rt cin n in
        if String.eqb (confirmationState intent) "None" then
          Ok (Some (delegate session_attributes active_contexts intent
                      "Confirm hotel reservation"))
        else if String.eqb (confirmationState intent) "Confirmed" then
          Ok (Some (close session_attributes active_contexts "Fulfilled"
                      (fulfilled intent) hotel_success_message))
        else Ok None.
Proof.
  intros Hm Hloc Hcin Hnt Hn Hrt Hcity Hok Hd Hleb Hrange Hroom.
  destruct (index_found room_types (lower rt) Hroom) as [rank Hrank].
  exists (n * (100 + location_cost loc + (100 + rank))). split.
  { unfold generate_hotel_price. by rewrite Hrank. }
  unfold book_hotel, intent_slots. rewrite Hm. cbn [res_bind].
  rewrite (validate_hotel_ok m (Some loc) cin ntext n rt d) by (try done; by intros c [= <-]).
  cbn [res_bind valid_result isValid negb].
  rewrite Hloc, Hcin, Hnt, Hrt. cbn [res_bind safe_int]. rewrite Hn.
  cbn [res_bind text default id].
  rewrite (isvalid_city_truthy _ Hcity), (strptime_truthy _ _ Hd),
    (isvalid_room_type_truthy _ Hroom).
  unfold truthy_int. replace (n =? 0) with false by lia. cbn [negb andb].
  unfold generate_hotel_price. rewrite Hrank. reflexivity.
Qed.

End Hotel.

Lemma build_names_slot violated msg :
  names_slot (build_validation_result false violated msg).
Proof. split; [done | ]. by exists violated, msg. Qed.

Section Shapes.

Context {DU : Dateutil}.
Variable today : date.

Lemma validate_hotel_shape m vr :
  validate_hotel today m = Ok vr → vr = valid_result ∨ names_slot vr.
Proof.
  intros H. unfold validate_hotel in H.
  bind_inv H as loc Eloc. bind_inv H as cin Ecin. bind_inv H as nights En.
  bind_inv H as rt Ert.
  apply or_continue_inv in H as [H | [_ H]].
  { right. break_in H; injection H as <-; apply build_names_slot. }
  apply or_continue_inv in H as [H | [_ H]].
  { right. break_in H; injection H as <-; apply build_names_slot. }
  apply or_continue_inv in H as [H | [_ H]].
  { right. break_in H; injection H as <-; apply build_names_slot. }
  apply or_continue_inv in H as [H | [_ H]].
  { right. break_in H; injection H as <-; apply build_names_slot. }
  left. by injection H as <-.
Qed.

Lemma validate_book_car_shape m vr :
  validate_book_car today m = Ok vr → vr = valid_result ∨ names_slot vr.
Proof.
  intros H. unfold validate_book_car in H.
  bind_inv H as city Ecity. bind_inv H as pd Epd. bind_inv H as rd Erd.
  bind_inv H as age Eage. bind_inv H as ct Ect.
  destruct (truthy city && negb (isvalid_city (text city))).
  { right. injection H as <-. apply build_names_slot. }
  apply or_continue_inv in H as [H | [_ H]].
  { right. break_in H; injection H as <-; apply build_names_slot. }
  apply or_continue_inv in H as [H | [_ H]].
  { right. break_in H; injection H as <-; apply build_names_slot. }
  apply or_continue_inv in H as [H | [_ H]].
  { right. unfold get_day_difference in H.
    break_in H; injection H as <-; apply build_names_slot. }
  apply or_continue_inv in H as [H | [_ H]].
  { right. break_in H; injection H as <-; apply build_names_slot. }
  apply or_continue_inv in H as [H | [_ H]].
  { right. break_in H; injection H as <-; apply build_names_slot. }
  left. by injection H as <-.
Qed.

End Shapes.

(** * The claims *)

Section HotelClaims.

Context {DU : Dateutil}.
Variable today : date.

(** C7. A hotel turn with Location 'Chicago', a check-in date that is
    tomorrow, Nights 3, RoomType 'King' and confirmation state 'None'
    gets a Delegate directive whose session attribute
    currentReservationPrice is the price of the hotel, which is the
    number the specification's formula
    [nights × (100 + location_digest + 100 + room_type_rank)] gives: 720. *)
Theorem hotel_chicago_delegates_with_price req m cin d :
  slots (sessionState_intent (sessionState req)) = Some m →
  confirmationState (sessionState_intent (sessionState req)) = "None" →
  slot_text m "Location" = Ok (Some "Chicago") →
  slot_text m "CheckInDate" = Ok (Some cin) →
  slot_text m "Nights" = Ok (Some "3") →
  slot_text m "RoomType" = Ok (Some "King") →
  isvalid_date cin = Ok true →
  strptime_Ymd cin = Ok d →
  valid today →
  toordinal d = toordinal today + 1 →
  ∃ r attrs price,
    book_hotel today req = Ok (Some r)
    ∧ da_type (r_dialogAction (r_sessionState r)) = "Delegate"
    ∧ r_sessionAttributes (r_sessionState r) = Some attrs
    ∧ attrs !! "currentReservationPrice" = Some (VNum (NInt price))
    ∧ generate_hotel_price "Chicago" 3 "King" = Ok price
    ∧ hotel_price "Chicago" 3 "King" = Ok price
    ∧ price = 3 * (100 + location_digest "Chicago" + 100 + 1).
Proof.
  intros Hm Hconf Hloc Hcin Hn Hrt Hok Hd Htoday Hnext.
  pose proof (next_day_after today d Htoday (strptime_valid _ _ Hd) Hnext) as Hleb.
  destruct (book_hotel_valid today req m "Chicago" cin "3" 3 "King" d)
    as (price & Hprice & Hbook); try done.
  cbv zeta in Hbook. rewrite Hconf, String.eqb_refl in Hbook.
  eexists _, _, price. split; [exact Hbook | ].
  cbn [delegate r_sessionState r_dialogAction da_type r_sessionAttributes].
  split; [reflexivity | ]. split; [reflexivity | ].
  split; [apply lookup_insert_eq | ]. split; [exact Hprice | ].
  split; [by rewrite <- generate_hotel_price_spec | ].
  vm_compute in Hprice. injection Hprice as <-. reflexivity.
Qed.

(** C8. A hotel turn whose four slots are filled and pass the validator
    and whose confirmation state is 'Confirmed' gets the directive
    [close(..., 'Fulfilled', ...)]: its type is Close, and the intent it
    returns has state 'Fulfilled' and confirmation state 'Confirmed'. *)
Theorem hotel_confirmed_closes_fulfilled req m vr loc :
  slots (sessionState_intent (sessionState req)) = Some m →
  confirmationState (sessionState_intent (sessionState req)) = "Confirmed" →
  slot_text m "Location" = Ok (Some loc) →
  validate_hotel today m = Ok vr →
  isValid vr = true →
  ∃ r session_attributes active_contexts text,
    book_hotel today req = Ok (Some r)
    ∧ r = close session_attributes active_contexts "Fulfilled"
            (fulfilled (sessionState_intent (sessionState req))) text
    ∧ da_type (r_dialogAction (r_sessionState r)) = "Close"
    ∧ state (r_intent (r_sessionState r)) = Some "Fulfilled"
    ∧ confirmationState (r_intent (r_sessionState r)) = "Confirmed".
Proof.
  intros Hm Hconf Hloc Hvr Hvalid.
  destruct (validate_hotel_valid_inv today m vr Hvr Hvalid)
    as (loc' & cin & ntext & n & rt & d & Hloc' & Hcin & Hnt & Hn & Hrt
        & Hcity & Hok & Hd & Hleb & Hrange & Hroom).
  rewrite Hloc in Hloc'. injection Hloc' as <-.
  destruct (book_hotel_valid today req m loc cin ntext n rt d)
    as (price & Hprice & Hbook); try done; [by apply Hcity | ].
  cbv zeta in Hbook. rewrite Hconf in Hbook.
  change ("Confirmed" =? "None")%string with false in Hbook.
  rewrite String.eqb_refl in Hbook.
  eexists _, _, _, _. split; [exact Hbook | ]. by repeat split.
Qed.

End HotelClaims.

Lemma hotel_chicago_delegates_with_price_witness :
  ∃ r attrs price,
    book_hotel (DU := numeric_dateutil) sample_today (sample_hotel_turn "None") = Ok (Some r)
    ∧ da_type (r_dialogAction (r_sessionState r)) = "Delegate"
    ∧ r_sessionAttributes (r_sessionState r) = Some attrs
    ∧ attrs !! "currentReservationPrice" = Some (VNum (NInt price))
    ∧ generate_hotel_price "Chicago" 3 "King" = Ok price
    ∧ hotel_price "Chicago" 3 "King" = Ok price
    ∧ price = 3 * (100 + location_digest "Chicago" + 100 + 1).
Proof.
  apply (hotel_chicago_delegates_with_price (DU := numeric_dateutil) sample_today
           (sample_hotel_turn "None")
           (hotel_slots (filled "Chicago") (filled "2024-05-01") (filled "3") (filled "King"))
           "2024-05-01" (mk_date 2024 5 1));
    vm_compute; reflexivity.
Defined.

Lemma hotel_confirmed_closes_fulfilled_witness :
  ∃ r session_attributes active_contexts text,
    book_hotel (DU := numeric_dateutil) sample_today (sample_hotel_turn "Confirmed")
    = Ok (Some r)
    ∧ r = close session_attributes active_contexts "Fulfilled"
            (fulfilled (sessionState_intent (sessionState (sample_hotel_turn "Confirmed"))))
            text
    ∧ da_type (r_dialogAction (r_sessionState r)) = "Close"
    ∧ state (r_intent (r_sessionState r)) = Some "Fulfilled"
    ∧ confirmationState (r_intent (r_sessionState r)) = "Confirmed".
Proof.
  apply (hotel_confirmed_closes_fulfilled (DU := numeric_dateutil) sample_today
           (sample_hotel_turn "Confirmed")
           (hotel_slots (filled "Chicago") (filled "2024-05-01") (filled "3") (filled "King"))
           valid_result "Chicago");
    vm_compute; reflexivity.
Defined.

Section CarClaims.

Context {DU : Dateutil}.
Variable today : date.

Lemma isvalid_date_parsed s dt : parse s = Ok dt → isvalid_date s = Ok true.
Proof. unfold isvalid_date. by intros ->. Qed.

Lemma city_passes city :
  (truthy city = true → isvalid_city (text city) = true) →
  truthy city && negb (isvalid_city (text city)) = false.
Proof. destruct (truthy city); [ | done]. by intros ->. Qed.

Lemma nonempty_truthy s : s ≠ "" → truthy (Some s) = true.
Proof. by destruct s. Qed.

(** The validator up to the comparison of the two dates: the city is
    absent or supported, the pickup date is a YYYY-MM-DD date after
    today, and the return date is read by the parser. *)
Ltac car_dates_pass Hcity Hcityok Hpd Hrd Ha Hage Hct Hp Hd Hleb Hne Hr :=
  unfold validate_book_car;
  rewrite Hcity, Hpd, Hrd, Ha; cbn [res_bind]; rewrite Hage, Hct; cbn [res_bind];
  rewrite (city_passes _ Hcityok);
  rewrite (strptime_truthy _ _ Hd), (nonempty_truthy _ Hne);
  cbn [text default id andb];
  rewrite (isvalid_date_parsed _ _ Hp), (isvalid_date_parsed _ _ Hr);
  cbn [res_bind negb or_continue]; rewrite Hd; cbn [res_bind]; rewrite Hleb;
  cbn [res_bind]; rewrite Hp, Hr; cbn [res_bind].

(** C5, as amended.  When the pickup city is not filled or is a
    supported city, the pickup date is a YYYY-MM-DD date after today,
    the return date is filled and parseable, the driver age (if filled)
    reads as an integer, and the pickup date is not before the return
    date, the car validator reports ReturnDate, whatever the driver age
    and the car type are. *)
Theorem return_not_after_pickup_reports_return_date m city pd rd a age ct p r d :
  slot_text m "PickUpCity" = Ok city →
  (truthy city = true → isvalid_city (text city) = true) →
  slot_text m "PickUpDate" = Ok (Some pd) →
  slot_text m "ReturnDate" = Ok (Some rd) →
  slot_text m "DriverAge" = Ok a →
  safe_int a = Ok age →
  slot_text m "CarType" = Ok ct →
  parse pd = Ok p →
  strptime_Ymd pd = Ok d →
  date_leb d today = false →
  rd ≠ "" →
  parse rd = Ok r →
  dt_ge p r = Ok true →
  ∃ vr,
    validate_book_car today m = Ok vr
    ∧ isValid vr = false
    ∧ violatedSlot vr = Some "ReturnDate".
Proof.
  intros Hcity Hcityok Hpd Hrd Ha Hage Hct Hp Hd Hleb Hne Hr Hge.
  eexists. split.
  - car_dates_pass Hcity Hcityok Hpd Hrd Ha Hage Hct Hp Hd Hleb Hne Hr.
    rewrite Hge. reflexivity.
  - done.
Qed.

(** C2, as amended.  During a dialog code hook, when the pickup city is
    not filled or is a supported city, the pickup date is a YYYY-MM-DD
    date after today, the return date is later than the pickup date by
    at most thirty days, the confirmation state is not 'Denied' and the
    DriverAge slot holds 17, the car handler elicits DriverAge and
    clears that slot, whatever the car type is. *)
Theorem driver_17_elicits_driver_age req m city pd rd a ct p r d :
  invocationSource req = "DialogCodeHook" →
  confirmationState (sessionState_intent (sessionState req)) ≠ "Denied" →
  slots (sessionState_intent (sessionState req)) = Some m →
  slot_text m "PickUpCity" = Ok city →
  (truthy city = true → isvalid_city (text city) = true) →
  slot_text m "PickUpDate" = Ok (Some pd) →
  slot_text m "ReturnDate" = Ok (Some rd) →
  slot_text m "DriverAge" = Ok (Some a) →
  py_int a = Ok 17 →
  slot_text m "CarType" = Ok ct →
  parse pd = Ok p →
  strptime_Ymd pd = Ok d →
  date_leb d today = false →
  rd ≠ "" →
  parse rd = Ok r →
  dt_ge p r = Ok false →
  Z.abs (toordinal (dt_date p) - toordinal (dt_date r)) ≤ 30 →
  ∃ resp,
    book_car today req = Ok (Some resp)
    ∧ r_dialogAction (r_sessionState resp)
      = {| da_type := "ElicitSlot"; slotToElicit := Some "DriverAge" |}
    ∧ slots (r_intent (r_sessionState resp)) = Some (<["DriverAge" := None]> m).
Proof.
  intros Hsrc Hconf Hm Hcity Hcityok Hpd Hrd Ha Hint Hct Hp Hd Hleb Hne Hr Hge Hspan.
  assert (safe_int (Some a) = Ok (Some 17)) as Hage by (simpl; by rewrite Hint).
  assert (∃ msg, validate_book_car today m
                 = Ok (build_validation_result false "DriverAge" msg)) as [msg Hvr].
  { eexists.
    car_dates_pass Hcity Hcityok Hpd Hrd Ha Hage Hct Hp Hd Hleb Hne Hr.
    rewrite Hge. cbn [res_bind]. unfold get_day_difference. rewrite Hp, Hr.
    cbn [res_bind]. replace (30 <? _) with false by lia. reflexivity. }
  eexists. split.
  - unfold book_car, intent_slots. rewrite Hm. cbn [res_bind].
    rewrite Hcity, Hpd, Hrd, Ha, Hct. cbn [res_bind].
    rewrite Hsrc, String.eqb_refl, Hvr.
    cbn [res_bind build_validation_result isValid negb violatedSlot message_content].
    rewrite String.eqb_refl.
    apply String.eqb_neq in Hconf. rewrite Hconf. reflexivity.
  - done.
Qed.

End CarClaims.

(** C5, as stated, fails: with an unsupported pickup city the validator
    reports PickUpCity although both dates are filled and parseable and
    the return date is before the pickup date. *)
Lemma return_before_pickup_unsupported_city :
  slot_text (backwards_car_slots "Atlantis") "PickUpDate" = Ok (Some "2024-05-10")
  ∧ slot_text (backwards_car_slots "Atlantis") "ReturnDate" = Ok (Some "2024-05-01")
  ∧ parse (Dateutil := numeric_dateutil) "2024-05-10" = Ok (mk_date 2024 5 10)
  ∧ parse (Dateutil := numeric_dateutil) "2024-05-01" = Ok (mk_date 2024 5 1)
  ∧ reports (validate_book_car (DU := numeric_dateutil) sample_today
               (backwards_car_slots "Atlantis")) "PickUpCity"
  ∧ ¬ reports (validate_book_car (DU := numeric_dateutil) sample_today
                 (backwards_car_slots "Atlantis")) "ReturnDate".
Proof.
  repeat split; try (vm_compute; reflexivity).
  - eexists. split; [vm_compute; reflexivity | done].
  - intros (vr & Hvr & _ & Hslot). vm_compute in Hvr. injection Hvr as <-.
    discriminate Hslot.
Qed.

Lemma return_not_after_pickup_reports_return_date_witness :
  ∃ vr,
    validate_book_car (DU := numeric_dateutil) sample_today (backwards_car_slots "Chicago")
    = Ok vr
    ∧ isValid vr = false
    ∧ violatedSlot vr = Some "ReturnDate".
Proof.
  apply (return_not_after_pickup_reports_return_date (DU := numeric_dateutil)
           sample_today (backwards_car_slots "Chicago") (Some "Chicago")
           "2024-05-10" "2024-05-01" (Some "17") (Some 17) (Some "spaceship")
           (mk_date 2024 5 10) (mk_date 2024 5 1) (mk_date 2024 5 10));
    try (vm_compute; reflexivity); done.
Defined.

(** C2, as stated, fails: with an unsupported pickup city the car handler
    elicits PickUpCity although the DriverAge slot holds 17. *)
Lemma driver_17_unsupported_city_elicits_city :
  slot_text (car_slots (filled "Atlantis") (filled "2024-05-01") (filled "2024-05-05")
               (filled "17") (filled "luxury")) "DriverAge" = Ok (Some "17")
  ∧ elicits (book_car (DU := numeric_dateutil) sample_today
               (sample_car_turn_17 "Atlantis" "DialogCodeHook")) "PickUpCity"
  ∧ ¬ elicits (book_car (DU := numeric_dateutil) sample_today
                 (sample_car_turn_17 "Atlantis" "DialogCodeHook")) "DriverAge".
Proof.
  split; [vm_compute; reflexivity | ]. split.
  - eexists. split; [vm_compute; reflexivity | reflexivity].
  - intros (resp & Hresp & Hda). vm_compute in Hresp. injection Hresp as <-.
    discriminate Hda.
Qed.

(** Outside the dialog code hook a driver aged 17 is not validated at
    all: the handler prices the rental and delegates. *)
Example driver_17_fulfillment_delegates :
  ∃ resp,
    book_car (DU := numeric_dateutil) sample_today
      (sample_car_turn_17 "Chicago" "FulfillmentCodeHook") = Ok (Some resp)
    ∧ da_type (r_dialogAction (r_sessionState resp)) = "Delegate".
Proof. eexists. split; [vm_compute; reflexivity | reflexivity]. Qed.

Lemma driver_17_elicits_driver_age_witness :
  ∃ resp,
    book_car (DU := numeric_dateutil) sample_today
      (sample_car_turn_17 "Chicago" "DialogCodeHook") = Ok (Some resp)
    ∧ r_dialogAction (r_sessionState resp)
      = {| da_type := "ElicitSlot"; slotToElicit := Some "DriverAge" |}
    ∧ slots (r_intent (r_sessionState resp))
      = Some (<["DriverAge" := None]>
                (car_slots (filled "Chicago") (filled "2024-05-01") (filled "2024-05-05")
                   (filled "17") (filled "luxury"))).
Proof.
  apply (driver_17_elicits_driver_age (DU := numeric_dateutil) sample_today
           (sample_car_turn_17 "Chicago" "DialogCodeHook") _ (Some "Chicago")
           "2024-05-01" "2024-05-05" "17" (Some "luxury")
           (mk_date 2024 5 1) (mk_date 2024 5 5) (mk_date 2024 5 1));
    try (vm_compute; reflexivity); done.
Defined.

Section DispatchClaims.

Context {DU : Dateutil}.
Variable today : date.

(** C3, as amended.  When the slot set holds a Location or a PickUpCity
    slot that is filled and the intent name is neither 'BookHotel' nor
    'BookCar', the dispatcher raises and returns no directive. *)
Theorem unsupported_intent_raises req m :
  slots (sessionState_intent (sessionState req)) = Some m →
  is_Some (default None (m !! "Location")) ∨ is_Some (default None (m !! "PickUpCity")) →
  name (sessionState_intent (sessionState req)) ≠ "BookHotel" →
  name (sessionState_intent (sessionState req)) ≠ "BookCar" →
  dispatch today req
  = Raise (Exception ("Intent with name "
                      +:+ name (sessionState_intent (sessionState req))
                      +:+ " not supported")).
Proof.
  intros Hm Hfilled Hhotel%String.eqb_neq Hcar%String.eqb_neq.
  unfold dispatch, intent_slots. rewrite Hm. cbn [res_bind].
  rewrite Hhotel, Hcar.
  destruct Hfilled as [H | H].
  - by rewrite (bool_decide_eq_true_2 _ H).
  - rewrite (bool_decide_eq_true_2 _ H). by rewrite orb_true_r.
Qed.

(** C9.  When neither the Location slot nor the PickUpCity slot is
    filled and the payload carries a list of active contexts whose first
    one has the attributes Location, CheckInDate and Nights, the
    dispatcher answers ConfirmIntent; the slots of the intent are
    PickUpCity = Location, PickUpDate = CheckInDate and
    ReturnDate = add_days(CheckInDate, Nights), and the context is
    returned with its turns-to-live set to 20. *)
Theorem carryover_confirms_car_from_context req m ctx rest attrs city cin ntext n rd :
  slots (sessionState_intent (sessionState req)) = Some m →
  default None (m !! "Location") = None →
  default None (m !! "PickUpCity") = None →
  activeContexts (sessionState req) = Some (ctx :: rest) →
  sessionAttributes (sessionState req) = Some attrs →
  contextAttributes ctx !! "Location" = Some city →
  contextAttributes ctx !! "CheckInDate" = Some cin →
  contextAttributes ctx !! "Nights" = Some ntext →
  py_int ntext = Ok n →
  add_days cin n = Ok rd →
  ∃ resp c,
    dispatch today req = Ok (Some resp)
    ∧ r_dialogAction (r_sessionState resp)
      = {| da_type := "ConfirmIntent"; slotToElicit := None |}
    ∧ slots (r_intent (r_sessionState resp))
      = Some (<["ReturnDate" := Some (scalar_slot rd)]>
                (<["PickUpDate" := Some (scalar_slot cin)]>
                   (<["PickUpCity" := Some (scalar_slot city)]> ∅)))
    ∧ r_activeContexts (r_sessionState resp) = Some [c]
    ∧ turnsToLive (timeToLive c) = 20
    ∧ ctx_name c = ctx_name ctx
    ∧ contextAttributes c = VStr <$> contextAttributes ctx.
Proof.
  intros Hm Hloc Hcity Hctx Hattrs Hl Hc Hn Hint Hadd.
  eexists _, _. split.
  - unfold dispatch, intent_slots. rewrite Hm. cbn [res_bind].
    rewrite Hloc, Hcity.
    rewrite !bool_decide_eq_false_2 by (intros [x Hx]; discriminate Hx).
    cbn [orb]. rewrite Hctx, Hattrs. cbn [res_bind].
    unfold getitem. rewrite Hc, Hn. cbn [res_bind]. rewrite Hint. cbn [res_bind].
    rewrite Hadd. cbn [res_bind contextAttributes]. rewrite Hl. cbn [res_bind].
    reflexivity.
  - by repeat split.
Qed.

End DispatchClaims.

(** C3, as stated, fails: on a first turn (no Location and no PickUpCity
    slot, no active context) an intent the bot does not have gets a
    directive, the one that elicits PickUpCity. *)
Lemma foreign_intent_first_turn_returns_directive :
  name (sessionState_intent (sessionState (foreign_turn ∅))) ≠ "BookHotel"
  ∧ name (sessionState_intent (sessionState (foreign_turn ∅))) ≠ "BookCar"
  ∧ dispatch (DU := numeric_dateutil) sample_today (foreign_turn ∅)
    = Ok (Some (initial_message "OrderPizza"))
  ∧ ¬ raises (dispatch (DU := numeric_dateutil) sample_today (foreign_turn ∅)).
Proof.
  split; [done | ]. split; [done | ].
  assert (dispatch (DU := numeric_dateutil) sample_today (foreign_turn ∅)
          = Ok (Some (initial_message "OrderPizza"))) as H by (vm_compute; reflexivity).
  split; [exact H | ]. intros [e He]. rewrite H in He. discriminate He.
Qed.

Lemma unsupported_intent_raises_witness :
  dispatch (DU := numeric_dateutil) sample_today
    (foreign_turn (hotel_slots (filled "Chicago") None None None))
  = Raise (Exception "Intent with name OrderPizza not supported").
Proof.
  apply (unsupported_intent_raises (DU := numeric_dateutil) sample_today
           (foreign_turn (hotel_slots (filled "Chicago") None None None))
           (hotel_slots (filled "Chicago") None None None)).
  - reflexivity.
  - left. vm_compute. by eexists.
  - done.
  - done.
Defined.

Lemma carryover_confirms_car_from_context_witness :
  ∃ resp c,
    dispatch (DU := numeric_dateutil) sample_today carryover_turn = Ok (Some resp)
    ∧ r_dialogAction (r_sessionState resp)
      = {| da_type := "ConfirmIntent"; slotToElicit := None |}
    ∧ slots (r_intent (r_sessionState resp))
      = Some (<["ReturnDate" := Some (scalar_slot "2024-05-05")]>
                (<["PickUpDate" := Some (scalar_slot "2024-05-01")]>
                   (<["PickUpCity" := Some (scalar_slot "Boston")]> ∅)))
    ∧ r_activeContexts (r_sessionState resp) = Some [c]
    ∧ turnsToLive (timeToLive c) = 20
    ∧ ctx_name c = ctx_name boston_context
    ∧ contextAttributes c = VStr <$> contextAttributes boston_context.
Proof.
  apply (carryover_confirms_car_from_context (DU := numeric_dateutil) sample_today
           carryover_turn ∅ boston_context [] sample_attributes
           "Boston" "2024-05-01" "4" 4 "2024-05-05");
    vm_compute; reflexivity.
Defined.

(** ** The price of a car *)

(** A type that is not, as written, one of the six base types is priced
    as 'economy'. *)
Lemma generate_car_price_unrecognized location days age car_type :
  str_in car_type car_types = false →
  generate_car_price location days age car_type
  = generate_car_price location days age "economy".
Proof.
  intros H. unfold generate_car_price, car_type_rank. by rewrite H.
Qed.

(** A base type written in lower case gets its position as rank. *)
Lemma car_type_rank_base car_type :
  str_in car_type car_types = true →
  car_type_rank car_type = index car_types car_type.
Proof.
  intros H. unfold car_type_rank. rewrite H. cbn [negb].
  apply bool_decide_eq_true in H. unfold car_types in H.
  repeat (apply elem_of_cons in H as [-> | H]; [reflexivity | ]).
  by apply elem_of_nil in H.
Qed.

(** C4.  The rank is not taken case-insensitively: 'Luxury' is at
    position 5 of the base list once lowered, but the test that guards
    the lookup compares the type as written, so 'Luxury' is replaced by
    'economy' and priced with rank 0. *)
Theorem capitalised_car_type_priced_as_economy :
  index car_types (lower "Luxury") = Ok 5
  ∧ car_type_rank "Luxury" = Ok 0
  ∧ generate_car_price "Chicago" 2 30 "Luxury" = Ok (NInt 278)
  ∧ generate_car_price "Chicago" 2 30 "economy" = Ok (NInt 278)
  ∧ generate_car_price "Chicago" 2 30 "luxury" = Ok (NInt 778).
Proof. repeat split; vm_compute; reflexivity. Qed.

(** ** Dates the two parsers disagree on *)

Section Unguarded.

Context {DU : Dateutil}.
Variable today : date.

(** Whatever [dateutil] is, a check-in date that it reads and that
    [strptime] rejects makes the hotel validator raise. *)
Lemma validate_hotel_strptime_raises m loc cin nights rt dt e :
  slot_text m "Location" = Ok loc →
  (∀ c, loc = Some c → isvalid_city c = true) →
  slot_text m "CheckInDate" = Ok (Some cin) →
  (let* v := slot_text m "Nights" in safe_int v) = Ok nights →
  slot_text m "RoomType" = Ok rt →
  parse cin = Ok dt →
  strptime_Ymd cin = Raise e →
  validate_hotel today m = Raise e.
Proof.
  intros Hloc Hcity Hcin Hn Hrt Hp Hs.
  unfold validate_hotel. rewrite Hloc, Hcin. cbn [res_bind]. rewrite Hn, Hrt.
  cbn [res_bind].
  assert (match loc with
          | Some city =>
              if negb (isvalid_city city)
              then Ok (Some (build_validation_result false "Location"
                               (unsupported_city city)))
              else Ok None
          | None => Ok None
          end = Ok None) as ->.
  { destruct loc as [c | ]; [ | done]. by rewrite (Hcity c eq_refl). }
  cbn [or_continue res_bind]. unfold isvalid_date. rewrite Hp. cbn [res_bind negb].
  rewrite Hs. reflexivity.
Qed.

(** The same for the pickup date of a car. *)
Lemma validate_book_car_strptime_raises m city pd rd age ct dt e :
  slot_text m "PickUpCity" = Ok city →
  (truthy city = true → isvalid_city (text city) = true) →
  slot_text m "PickUpDate" = Ok (Some pd) →
  pd ≠ "" →
  slot_text m "ReturnDate" = Ok rd →
  (let* v := slot_text m "DriverAge" in safe_int v) = Ok age →
  slot_text m "CarType" = Ok ct →
  parse pd = Ok dt →
  strptime_Ymd pd = Raise e →
  validate_book_car today m = Raise e.
Proof.
  intros Hcity Hcityok Hpd Hne Hrd Hage Hct Hp Hs.
  unfold validate_book_car. rewrite Hcity, Hpd, Hrd. cbn [res_bind].
  rewrite Hage, Hct. cbn [res_bind].
  destruct (truthy city && negb (isvalid_city (text city))) eqn:E.
  { apply andb_true_iff in E as [E1 E2]. rewrite (Hcityok E1) in E2. discriminate E2. }
  destruct pd as [ | c pd]; [done | ]. cbn [truthy text default id].
  unfold isvalid_date. rewrite Hp. cbn [res_bind negb or_continue]. rewrite Hs.
  reflexivity.
Qed.

End Unguarded.

(** C1.  The hotel validator raises on a check-in date that the flexible
    parser accepts and that is not in the form YYYY-MM-DD: with the date
    '2030/05/01' [isvalid_date] answers true, [strptime] raises
    [ValueError], and so does the validator, although every expected
    slot key is there. *)
Theorem validate_hotel_raises_on_slashed_date :
  (∀ key, key ∈ ["Location"; "CheckInDate"; "Nights"; "RoomType"] →
          is_Some (slashed_date_slots !! key))
  ∧ slot_text slashed_date_slots "CheckInDate" = Ok (Some "2030/05/01")
  ∧ isvalid_date (DU := numeric_dateutil) "2030/05/01" = Ok true
  ∧ strptime_Ymd "2030/05/01" = Raise ValueError
  ∧ validate_hotel (DU := numeric_dateutil) sample_today slashed_date_slots
    = Raise ValueError.
Proof.
  split.
  { intros key Hkey.
    repeat (apply elem_of_cons in Hkey as [-> | Hkey]; [vm_compute; by eexists | ]).
    by apply elem_of_nil in Hkey. }
  repeat split; vm_compute; reflexivity.
Qed.

(** ** Validation failures and session attributes *)

Section Directives.

Context {DU : Dateutil}.
Variable today : date.

(** The car validator has read the five slots when it answers. *)
Lemma validate_book_car_reads m vr :
  validate_book_car today m = Ok vr →
  ∃ city pd rd a ct,
    slot_text m "PickUpCity" = Ok city
    ∧ slot_text m "PickUpDate" = Ok pd
    ∧ slot_text m "ReturnDate" = Ok rd
    ∧ slot_text m "DriverAge" = Ok a
    ∧ slot_text m "CarType" = Ok ct.
Proof.
  intros H. unfold validate_book_car in H.
  bind_inv H as city Ecity. bind_inv H as pd Epd. bind_inv H as rd Erd.
  bind_inv H as age Eage. bind_inv Eage as a Ea. bind_inv H as ct Ect.
  by exists city, pd, rd, a, ct.
Qed.

(** C6, as amended.  A validation failure of the hotel handler, and a
    validation failure of the car handler during a dialog code hook
    other than DriverAge under confirmation state 'Denied', is answered
    by an ElicitSlot directive that names the violated slot and clears
    it in the intent; the response carries no message. *)
Theorem validation_failure_elicits_violated_slot req m :
  slots (sessionState_intent (sessionState req)) = Some m →
  (∀ vr,
     validate_hotel today m = Ok vr → isValid vr = false →
     ∃ violated resp,
       violatedSlot vr = Some violated
       ∧ book_hotel today req = Ok (Some resp)
       ∧ r_dialogAction (r_sessionState resp)
         = {| da_type := "ElicitSlot"; slotToElicit := Some violated |}
       ∧ cleared resp violated
       ∧ r_messages resp = None)
  ∧ (∀ vr,
       invocationSource req = "DialogCodeHook" →
       validate_book_car today m = Ok vr → isValid vr = false →
       ¬ (violatedSlot vr = Some "DriverAge"
          ∧ confirmationState (sessionState_intent (sessionState req)) = "Denied") →
       ∃ violated resp,
         violatedSlot vr = Some violated
         ∧ book_car today req = Ok (Some resp)
         ∧ r_dialogAction (r_sessionState resp)
           = {| da_type := "ElicitSlot"; slotToElicit := Some violated |}
         ∧ cleared resp violated
         ∧ r_messages resp = None).
Proof.
  intros Hm. split.
  - intros vr Hvr Hinvalid.
    destruct (validate_hotel_shape today m vr Hvr) as [-> | (_ & violated & msg & Hv & Hmsg)];
      [discriminate Hinvalid | ].
    exists violated. eexists. split; [exact Hv | ]. split.
    + unfold book_hotel, intent_slots. rewrite Hm. cbn [res_bind]. rewrite Hvr.
      cbn [res_bind]. rewrite Hinvalid, Hv, Hmsg. reflexivity.
    + split; [reflexivity | ]. split; [ | reflexivity].
      eexists. split; [reflexivity | apply lookup_insert_eq].
  - intros vr Hsrc Hvr Hinvalid Hnot.
    destruct (validate_book_car_shape today m vr Hvr)
      as [-> | (_ & violated & msg & Hv & Hmsg)]; [discriminate Hinvalid | ].
    destruct (validate_book_car_reads m vr Hvr)
      as (city & pd & rd & a & ct & Hcity & Hpd & Hrd & Ha & Hct).
    exists violated. eexists. split; [exact Hv | ]. split.
    + unfold book_car, intent_slots. rewrite Hm. cbn [res_bind].
      rewrite Hcity, Hpd, Hrd, Ha, Hct. cbn [res_bind].
      rewrite Hsrc, String.eqb_refl, Hvr. cbn [res_bind].
      rewrite Hinvalid, Hv, Hmsg. cbn [negb].
      destruct ((violated =? "DriverAge")%string
                && (confirmationState (sessionState_intent (sessionState req))
                    =? "Denied")%string) eqn:E.
      { exfalso. apply Hnot. apply andb_true_iff in E as [E1 E2].
        apply String.eqb_eq in E1, E2. by subst. }
      reflexivity.
    + split; [reflexivity | ]. split; [ | reflexivity].
      eexists. split; [reflexivity | apply lookup_insert_eq].
Qed.

(** C10.  A directive of the hotel handler carries as session attributes
    the session id alone when validation fails, and the session id with
    currentReservationPrice otherwise: nothing of the session attributes
    of the payload is kept.  A directive of the car handler carries the
    session attributes of the payload, unchanged when it elicits a slot
    and with currentReservationPrice set otherwise. *)
Theorem session_attributes_frame req resp :
  (book_hotel today req = Ok (Some resp) →
   ∃ m vr,
     slots (sessionState_intent (sessionState req)) = Some m
     ∧ validate_hotel today m = Ok vr
     ∧ if isValid vr
       then ∃ price,
         r_sessionAttributes (r_sessionState resp)
         = Some (<["currentReservationPrice" := VNum (NInt price)]>
                   (<["sessionId" := VStr (sessionId req)]> ∅))
       else
         r_sessionAttributes (r_sessionState resp)
         = Some (<["sessionId" := VStr (sessionId req)]> ∅))
  ∧ (book_car today req = Ok (Some resp) →
     (da_type (r_dialogAction (r_sessionState resp)) = "ElicitSlot"
      ∧ r_sessionAttributes (r_sessionState resp)
        = Some (default ∅ (sessionAttributes (sessionState req))))
     ∨ (da_type (r_dialogAction (r_sessionState resp)) ≠ "ElicitSlot"
        ∧ ∃ price,
          r_sessionAttributes (r_sessionState resp)
          = Some (<["currentReservationPrice" := VNum price]>
                    (default ∅ (sessionAttributes (sessionState req)))))).
Proof.
  split.
  - intros H. unfold book_hotel, intent_slots in H.
    destruct (slots (sessionState_intent (sessionState req))) as [m | ];
      [ | discriminate H].
    cbn [res_bind] in H. bind_inv H as vr Evr.
    exists m, vr. split; [reflexivity | ]. split; [exact Evr | ].
    destruct (isValid vr); cbn [negb] in H.
    + bind_inv H as loc Eloc. bind_inv H as cin Ecin. bind_inv H as n En.
      bind_inv H as rt Ert.
      destruct (truthy loc && truthy cin && truthy_int n && truthy rt);
        [ | discriminate H].
      bind_inv H as price Eprice. exists price.
      destruct (_ =? "None")%string; [by injection H as <- | ].
      destruct (_ =? "Confirmed")%string; [by injection H as <- | discriminate H].
    + destruct (violatedSlot vr), (message_content vr); try discriminate H.
      by injection H as <-.
  - intros H. unfold book_car in H.
    bind_inv H as m Em. bind_inv H as city Ecity. bind_inv H as pd Epd.
    bind_inv H as rd Erd. bind_inv H as a Ea. bind_inv H as ct Ect.
    bind_inv H as hook Ehook.
    destruct hook as [r | ].
    + injection H as ->. left.
      destruct (_ =? "DialogCodeHook")%string; [ | discriminate Ehook].
      bind_inv Ehook as vr Evr.
      destruct (negb (isValid vr)); [ | discriminate Ehook].
      destruct (violatedSlot vr), (message_content vr); try discriminate Ehook.
      destruct (_ && _); by injection Ehook as <-.
    + right.
      destruct (truthy city && truthy pd && truthy rd && truthy a && truthy ct);
        [ | discriminate H].
      bind_inv H as days Edays. bind_inv H as age Eage. bind_inv H as price Eprice.
      destruct (_ =? "Denied")%string; [injection H as <-; split; [done | by eexists] | ].
      destruct (_ =? "None")%string; [injection H as <-; split; [done | by eexists] | ].
      destruct (_ =? "Confirmed")%string; [ | discriminate H].
      injection H as <-. split; [done | by eexists].
Qed.

End Directives.

(** C6, as stated, fails: the directive that answers an unsupported city
    names the Location slot but does not carry the guidance message. *)
Lemma elicit_slot_carries_no_message :
  validate_hotel (DU := numeric_dateutil) sample_today
    (hotel_slots (filled "Atlantis") None None None)
  = Ok (build_validation_result false "Location" (unsupported_city "Atlantis"))
  ∧ ∃ resp,
      book_hotel (DU := numeric_dateutil) sample_today unsupported_hotel_turn
      = Ok (Some resp)
      ∧ r_dialogAction (r_sessionState resp)
        = {| da_type := "ElicitSlot"; slotToElicit := Some "Location" |}
      ∧ ¬ carries_message resp (unsupported_city "Atlantis").
Proof.
  split; [vm_compute; reflexivity | ].
  eexists. split; [vm_compute; reflexivity | ]. split; [reflexivity | ].
  intros (l & Hl & _). discriminate Hl.
Qed.

Lemma validation_failure_elicits_violated_slot_witness :
  (∃ violated resp,
     violatedSlot (build_validation_result false "Location" (unsupported_city "Atlantis"))
     = Some violated
     ∧ book_hotel (DU := numeric_dateutil) sample_today unsupported_hotel_turn
       = Ok (Some resp)
     ∧ r_dialogAction (r_sessionState resp)
       = {| da_type := "ElicitSlot"; slotToElicit := Some violated |}
     ∧ cleared resp violated
     ∧ r_messages resp = None)
  ∧ (∃ violated resp,
       violatedSlot
         (build_validation_result false "DriverAge"
            "Your driver must be at least eighteen to rent a car.  Can you provide the age of a different driver?")
       = Some violated
       ∧ book_car (DU := numeric_dateutil) sample_today
           (sample_car_turn_17 "Chicago" "DialogCodeHook") = Ok (Some resp)
       ∧ r_dialogAction (r_sessionState resp)
         = {| da_type := "ElicitSlot"; slotToElicit := Some violated |}
       ∧ cleared resp violated
       ∧ r_messages resp = None).
Proof.
  split.
  - apply (proj1 (validation_failure_elicits_violated_slot (DU := numeric_dateutil)
                    sample_today unsupported_hotel_turn
                    (hotel_slots (filled "Atlantis") None None None) eq_refl));
      vm_compute; reflexivity.
  - apply (proj2 (validation_failure_elicits_violated_slot (DU := numeric_dateutil)
                    sample_today (sample_car_turn_17 "Chicago" "DialogCodeHook")
                    (car_slots (filled "Chicago") (filled "2024-05-01")
                       (filled "2024-05-05") (filled "17") (filled "luxury"))
                    eq_refl)).
    + reflexivity.
    + vm_compute; reflexivity.
    + reflexivity.
    + intros [_ H]. discriminate H.
Defined.

Lemma session_attributes_frame_witness :
  (∃ m vr,
     slots (sessionState_intent (sessionState (sample_hotel_turn "None"))) = Some m
     ∧ validate_hotel (DU := numeric_dateutil) sample_today m = Ok vr
     ∧ if isValid vr
       then ∃ price,
         r_sessionAttributes (r_sessionState sample_hotel_delegate)
         = Some (<["currentReservationPrice" := VNum (NInt price)]>
                   (<["sessionId" := VStr "session-1"]> ∅))
       else
         r_sessionAttributes (r_sessionState sample_hotel_delegate)
         = Some (<["sessionId" := VStr "session-1"]> ∅))
  ∧ ((da_type (r_dialogAction (r_sessionState sample_car_close)) = "ElicitSlot"
      ∧ r_sessionAttributes (r_sessionState sample_car_close)
        = Some (default ∅ (sessionAttributes (sessionState (sample_car_turn "Confirmed")))))
     ∨ (da_type (r_dialogAction (r_sessionState sample_car_close)) ≠ "ElicitSlot"
        ∧ ∃ price,
          r_sessionAttributes (r_sessionState sample_car_close)
          = Some (<["currentReservationPrice" := VNum price]>
                    (default ∅
                       (sessionAttributes (sessionState (sample_car_turn "Confirmed"))))))).
Proof.
  split.
  - apply (proj1 (session_attributes_frame (DU := numeric_dateutil) sample_today
                    (sample_hotel_turn "None") sample_hotel_delegate)).
    vm_compute. reflexivity.
  - apply (proj2 (session_attributes_frame (DU := numeric_dateutil) sample_today
                    (sample_car_turn "Confirmed") sample_car_close)).
    vm_compute. reflexivity.
Defined.

(** ** Further runs of the car handler *)

(** Under confirmation state 'Denied' the failure on DriverAge is turned
    into a fresh start: PickUpCity is elicited and the intent returned
    has no slot at all, not even a cleared PickUpCity. *)
Example driver_17_denied_restarts :
  ∃ resp,
    book_car (DU := numeric_dateutil) sample_today
      (turn "BookCar" "Denied" "DialogCodeHook"
         (car_slots (filled "Chicago") (filled "2024-05-01") (filled "2024-05-05")
            (filled "17") (filled "luxury"))
         None (Some sample_attributes)) = Ok (Some resp)
    ∧ r_dialogAction (r_sessionState resp)
      = {| da_type := "ElicitSlot"; slotToElicit := Some "PickUpCity" |}
    ∧ slots (r_intent (r_sessionState resp)) = Some ∅.
Proof. eexists. split; [vm_compute; reflexivity | by split]. Qed.

(** A pickup date that is not after today is reported before the two
    dates are compared. *)
Example return_before_pickup_in_the_past :
  reports (validate_book_car (DU := numeric_dateutil) (mk_date 2024 5 10)
             (backwards_car_slots "Chicago")) "PickUpDate".
Proof. eexists. split; [vm_compute; reflexivity | by split]. Qed.

(** * Further properties of the code *)

(** ** Prices *)

Lemma index_bounds l x i : index l x = Ok i → 0 ≤ i < Z.of_nat (length l).
Proof.
  revert i. induction l as [ | y l IH]; intros i; simpl; [done | ].
  destruct (String.eqb y x); [intros [= <-]; lia | ].
  destruct (index l x) as [j | ]; simpl; [ | done].
  intros [= <-]. specialize (IH j eq_refl). lia.
Qed.

Lemma index_missing l x : str_in x l = false → index l x = Raise ValueError.
Proof.
  unfold str_in. intros H%bool_decide_eq_false.
  induction l as [ | y l IH]; [done | ].
  simpl. destruct (String.eqb_spec y x) as [-> | Hne].
  - exfalso. apply H. by left.
  - rewrite IH; [done | ]. intros Hin. apply H. by right.
Qed.

Lemma generate_hotel_price_rank location nights room_type :
  isvalid_room_type room_type = true →
  ∃ rank,
    0 ≤ rank ≤ 2
    ∧ generate_hotel_price location nights room_type
      = Ok (nights * (200 + location_digest location + rank)).
Proof.
  unfold isvalid_room_type, generate_hotel_price. rewrite location_cost_digest.
  intros H. destruct (index_found _ _ H) as [rank Hrank].
  pose proof (index_bounds _ _ _ Hrank) as Hb. cbn in Hb.
  exists rank. split; [lia | ]. rewrite Hrank. cbn [res_bind]. f_equal. lia.
Qed.

(** [generate_hotel_price] is defined exactly on the room types that
    [isvalid_room_type] accepts: on them it is
    [nights * (200 + digest + rank)] with a rank from 0 to 2, and on any
    other room type [room_types.index] raises [ValueError]. *)
Theorem generate_hotel_price_defined location nights room_type :
  (isvalid_room_type room_type = true →
   ∃ rank,
     0 ≤ rank ≤ 2
     ∧ generate_hotel_price location nights room_type
       = Ok (nights * (200 + location_digest location + rank)))
  ∧ (isvalid_room_type room_type = false →
     generate_hotel_price location nights room_type = Raise ValueError).
Proof.
  split; [apply generate_hotel_price_rank | ].
  unfold isvalid_room_type, generate_hotel_price.
  intros H. by rewrite (index_missing _ _ H).
Qed.

(** The cost of a supported city, in any letter case, is between -3 and
    121. *)
Lemma location_cost_supported city :
  isvalid_city city = true → -3 ≤ location_cost city ≤ 121.
Proof.
  intros H. rewrite location_cost_digest, <- char_sum_lower.
  unfold isvalid_city, str_in in H. apply bool_decide_eq_true in H.
  unfold valid_cities in H.
  repeat (apply elem_of_cons in H as [-> | H]; [vm_compute; split; discriminate | ]).
  by apply elem_of_nil in H.
Qed.

(** A hotel booking that passes validation (supported city, one to
    thirty nights, known room type) has a price, and the price per night
    is between 197 and 323. *)
Theorem generate_hotel_price_validated location nights room_type :
  isvalid_city location = true →
  1 ≤ nights ≤ 30 →
  isvalid_room_type room_type = true →
  ∃ price,
    generate_hotel_price location nights room_type = Ok price
    ∧ 197 * nights ≤ price ≤ 323 * nights.
Proof.
  intros Hcity Hn Hroom.
  destruct (generate_hotel_price_rank location nights room_type Hroom)
    as (rank & Hrank & Hprice).
  pose proof (location_cost_supported _ Hcity) as Hcost.
  rewrite location_cost_digest in Hcost.
  eexists. split; [exact Hprice | ]. nia.
Qed.

Lemma generate_hotel_price_validated_witness :
  ∃ price,
    generate_hotel_price "El Paso" 2 "Queen" = Ok price
    ∧ 197 * 2 ≤ price ≤ 323 * 2.
Proof.
  apply (generate_hotel_price_validated "El Paso" 2 "Queen");
    [vm_compute; reflexivity | lia | vm_compute; reflexivity].
Defined.

Lemma car_type_rank_total car_type :
  ∃ rank, car_type_rank car_type = Ok rank ∧ 0 ≤ rank ≤ 5.
Proof.
  assert (∃ rank, car_type_rank car_type = Ok rank) as [rank Hrank].
  { unfold car_type_rank.
    destruct (str_in car_type car_types) eqn:E; cbn [negb]; [ | by eexists].
    apply bool_decide_eq_true in E. unfold car_types in E.
    repeat (apply elem_of_cons in E as [-> | E]; [eexists; vm_compute; reflexivity | ]).
    by apply elem_of_nil in E. }
  exists rank. split; [exact Hrank | ].
  unfold car_type_rank in Hrank. apply index_bounds in Hrank. cbn in Hrank. lia.
Qed.

(** The rank of a car type is always defined and lies between 0 and 5,
    and for a driver of 25 or more the price of a car is the integer
    [days * (100 + digest + 50 * rank)]: the function never raises
    there, whatever the car type is. *)
Theorem generate_car_price_adult location days age car_type :
  25 ≤ age →
  ∃ rank,
    car_type_rank car_type = Ok rank
    ∧ 0 ≤ rank ≤ 5
    ∧ generate_car_price location days age car_type
      = Ok (NInt (days * (100 + location_digest location + 50 * rank))).
Proof.
  intros Hage.
  destruct (car_type_rank_total car_type) as (rank & Hrank & Hb).
  exists rank. split; [exact Hrank | ]. split; [exact Hb | ].
  unfold generate_car_price. rewrite Hrank, location_cost_digest.
  replace (age <? 25) with false by lia. cbn [res_bind py_mul py_add].
  do 2 f_equal. lia.
Qed.

Lemma generate_car_price_adult_witness :
  ∃ rank,
    car_type_rank "lujo" = Ok rank
    ∧ 0 ≤ rank ≤ 5
    ∧ generate_car_price "Boston" 4 30 "lujo"
      = Ok (NInt (4 * (100 + location_digest "Boston" + 50 * rank))).
Proof. apply (generate_car_price_adult "Boston" 4 30 "lujo"). lia. Defined.

(** ** Dates *)

Section DateHelpers.

Context {DU : Dateutil}.


(** On two dates the parser reads, [get_day_difference] does not depend
    on the order of its arguments and is never negative. *)
Theorem get_day_difference_symmetric a b da db :
  parse a = Ok da →
  parse b = Ok db →
  ∃ n,
    get_day_difference a b = Ok n
    ∧ get_day_difference b a = Ok n
    ∧ 0 ≤ n.
Proof.
  intros Ha Hb. unfold get_day_difference. rewrite Ha, Hb. cbn [res_bind].
  eexists. split; [reflexivity | ]. split; [f_equal; lia | lia].
Qed.

End DateHelpers.

Lemma get_day_difference_symmetric_witness :
  ∃ n,
    get_day_difference (DU := numeric_dateutil) "2024-05-01" "2024-05-05" = Ok n
    ∧ get_day_difference (DU := numeric_dateutil) "2024-05-05" "2024-05-01" = Ok n
    ∧ 0 ≤ n.
Proof.
  apply (get_day_difference_symmetric (DU := numeric_dateutil)
           "2024-05-01" "2024-05-05" (mk_date 2024 5 1) (mk_date 2024 5 5));
    vm_compute; reflexivity.
Defined.

(** ** The validators *)

(** Membership in a list given by its elements. *)
Ltac in_list :=
  repeat first [apply list_elem_of_here | apply list_elem_of_further].

Section Validators.

Context {DU : Dateutil}.
Variable today : date.

(** A verdict of the hotel validator that is not valid names one of the
    four hotel slots. *)
Theorem validate_hotel_violated_slot m vr :
  validate_hotel today m = Ok vr →
  isValid vr = false →
  ∃ violated,
    violatedSlot vr = Some violated
    ∧ violated ∈ ["Location"; "CheckInDate"; "Nights"; "RoomType"].
Proof.
  intros H Hinvalid. unfold validate_hotel in H.
  bind_inv H as loc Eloc. bind_inv H as cin Ecin. bind_inv H as nights En.
  bind_inv H as rt Ert.
  apply or_continue_inv in H as [H | [_ H]].
  { break_in H; injection H as <-; eexists; split; [reflexivity | in_list]. }
  apply or_continue_inv in H as [H | [_ H]].
  { break_in H; injection H as <-; eexists; (split; [reflexivity | in_list]). }
  apply or_continue_inv in H as [H | [_ H]].
  { break_in H; injection H as <-; eexists; (split; [reflexivity | in_list]). }
  apply or_continue_inv in H as [H | [_ H]].
  { break_in H; injection H as <-; eexists; (split; [reflexivity | in_list]). }
  injection H as <-. discriminate Hinvalid.
Qed.

(** A verdict of the car validator that is not valid names one of the
    five car slots. *)
Theorem validate_book_car_violated_slot m vr :
  validate_book_car today m = Ok vr →
  isValid vr = false →
  ∃ violated,
    violatedSlot vr = Some violated
    ∧ violated ∈ ["PickUpCity"; "PickUpDate"; "ReturnDate"; "DriverAge"; "CarType"].
Proof.
  intros H Hinvalid. unfold validate_book_car in H.
  bind_inv H as city Ecity. bind_inv H as pd Epd. bind_inv H as rd Erd.
  bind_inv H as age Eage. bind_inv H as ct Ect.
  destruct (truthy city && negb (isvalid_city (text city))).
  { injection H as <-. eexists. split; [reflexivity | in_list]. }
  apply or_continue_inv in H as [H | [_ H]].
  { break_in H; injection H as <-; eexists; (split; [reflexivity | in_list]). }
  apply or_continue_inv in H as [H | [_ H]].
  { break_in H; injection H as <-; eexists; (split; [reflexivity | in_list]). }
  apply or_continue_inv in H as [H | [_ H]].
  { unfold get_day_difference in H.
    break_in H; injection H as <-; eexists; (split; [reflexivity | in_list]). }
  apply or_continue_inv in H as [H | [_ H]].
  { break_in H; injection H as <-; eexists; (split; [reflexivity | in_list]). }
  apply or_continue_inv in H as [H | [_ H]].
  { break_in H; injection H as <-; eexists; (split; [reflexivity | in_list]). }
  injection H as <-. discriminate Hinvalid.
Qed.

End Validators.

Section ValidVerdicts.

Context {DU : Dateutil}.
Variable today : date.

(** The hotel validator answers valid exactly when the check-in date,
    the nights and the room type are filled, the location is not filled
    or is a supported city, the parser reads the check-in date, the date
    is a YYYY-MM-DD date after today, the nights are between 1 and 30 and
    the room type is known. *)
Theorem validate_hotel_valid_iff m :
  (∃ vr, validate_hotel today m = Ok vr ∧ isValid vr = true)
  ↔ ∃ loc cin ntext n rt d,
      slot_text m "Location" = Ok loc
      ∧ slot_text m "CheckInDate" = Ok (Some cin)
      ∧ slot_text m "Nights" = Ok (Some ntext)
      ∧ py_int ntext = Ok n
      ∧ slot_text m "RoomType" = Ok (Some rt)
      ∧ (∀ c, loc = Some c → isvalid_city c = true)
      ∧ isvalid_date cin = Ok true
      ∧ strptime_Ymd cin = Ok d
      ∧ date_leb d today = false
      ∧ 1 ≤ n ≤ 30
      ∧ isvalid_room_type rt = true.
Proof.
  split.
  - intros (vr & Hvr & Hvalid). by apply (validate_hotel_valid_inv today m vr).
  - intros (loc & cin & ntext & n & rt & d & H1 & H2 & H3 & H4 & H5 & H6 & H7 & H8
            & H9 & H10 & H11).
    exists valid_result. split; [ | reflexivity].
    by apply (validate_hotel_ok today m loc cin ntext n rt d).
Qed.

(** What the car validator has checked when it answers valid. *)
Lemma validate_book_car_valid_inv m vr :
  validate_book_car today m = Ok vr → isValid vr = true →
  ∃ city pd rd atext age ct p r d,
    slot_text m "PickUpCity" = Ok city
    ∧ (truthy city = true → isvalid_city (text city) = true)
    ∧ slot_text m "PickUpDate" = Ok (Some pd)
    ∧ slot_text m "ReturnDate" = Ok (Some rd)
    ∧ rd ≠ ""
    ∧ slot_text m "DriverAge" = Ok (Some atext)
    ∧ py_int atext = Ok age
    ∧ 18 ≤ age
    ∧ slot_text m "CarType" = Ok (Some ct)
    ∧ isvalid_car_type ct = true
    ∧ parse pd = Ok p
    ∧ strptime_Ymd pd = Ok d
    ∧ date_leb d today = false
    ∧ parse rd = Ok r
    ∧ dt_ge p r = Ok false
    ∧ Z.abs (toordinal (dt_date p) - toordinal (dt_date r)) ≤ 30.
Proof.
  intros H Hv. unfold validate_book_car in H.
  bind_inv H as city Ecity. bind_inv H as pd Epd. bind_inv H as rd Erd.
  bind_inv H as age Eage. bind_inv Eage as a Ea. bind_inv H as ct Ect.
  destruct (truthy city && negb (isvalid_city (text city))) eqn:Hcity.
  { injection H as <-. discriminate Hv. }
  apply or_continue_inv in H as [H | [H1 H]].
  { break_in H; injection H as <-; discriminate Hv. }
  apply or_continue_inv in H as [H | [H2 H]].
  { break_in H; injection H as <-; discriminate Hv. }
  apply or_continue_inv in H as [H | [H3 H]].
  { unfold get_day_difference in H. break_in H; injection H as <-; discriminate Hv. }
  apply or_continue_inv in H as [H | [H4 H]].
  { break_in H; injection H as <-; discriminate Hv. }
  apply or_continue_inv in H as [H | [H5 H]].
  { break_in H; injection H as <-; discriminate Hv. }
  clear H Hv.
  destruct pd as [pd | ]; [ | discriminate H1].
  destruct pd as [ | c0 pd0]; [discriminate H1 | ].
  set (pd := String c0 pd0) in *.
  destruct rd as [rd | ]; [ | discriminate H2].
  destruct rd as [ | c1 rd1]; [discriminate H2 | ].
  set (rd := String c1 rd1) in *.
  cbn [truthy text default id andb] in H1, H2, H3.
  unfold isvalid_date in H1, H2.
  destruct (parse pd) as [p | e] eqn:Ep; [ | destruct e; discriminate H1].
  destruct (parse rd) as [r | e] eqn:Er; [ | destruct e; discriminate H2].
  cbn [res_bind negb] in H1, H3.
  destruct (strptime_Ymd pd) as [d | ] eqn:Ed; [ | discriminate H1].
  cbn [res_bind] in H1.
  destruct (date_leb d today) eqn:Eleb; [discriminate H1 | ].
  destruct (dt_ge p r) as [ge | ] eqn:Ege; [ | discriminate H3].
  cbn [res_bind] in H3. destruct ge; [discriminate H3 | ].
  unfold get_day_difference in H3. rewrite Ep, Er in H3. cbn [res_bind] in H3.
  destruct (30 <? _) eqn:Espan; [discriminate H3 | ].
  destruct age as [age | ]; [ | discriminate H4].
  destruct (age <? 18) eqn:Eage18; [discriminate H4 | ].
  apply safe_int_some in Eage as (atext & -> & Hint).
  destruct ct as [ct | ]; [ | discriminate H5].
  destruct ct as [ | c2 ct2]; [discriminate H5 | ].
  set (ct := String c2 ct2) in *. cbn [truthy text default id] in H5.
  destruct (isvalid_car_type ct) eqn:Ect'; [ | discriminate H5].
  exists city, pd, rd, atext, age, ct, p, r, d.
  repeat split; try done; try lia.
  intros Htruthy. rewrite Htruthy in Hcity. cbn [andb] in Hcity.
  by destruct (isvalid_city (text city)).
Qed.

(** The car validator accepts slots that pass every check. *)
Lemma validate_book_car_ok m city pd rd atext age ct p r d :
  slot_text m "PickUpCity" = Ok city →
  (truthy city = true → isvalid_city (text city) = true) →
  slot_text m "PickUpDate" = Ok (Some pd) →
  slot_text m "ReturnDate" = Ok (Some rd) →
  rd ≠ "" →
  slot_text m "DriverAge" = Ok (Some atext) →
  py_int atext = Ok age →
  18 ≤ age →
  slot_text m "CarType" = Ok (Some ct) →
  isvalid_car_type ct = true →
  parse pd = Ok p →
  strptime_Ymd pd = Ok d →
  date_leb d today = false →
  parse rd = Ok r →
  dt_ge p r = Ok false →
  Z.abs (toordinal (dt_date p) - toordinal (dt_date r)) ≤ 30 →
  validate_book_car today m = Ok valid_result.
Proof.
  intros Hcity Hcityok Hpd Hrd Hne Ha Hint Hage Hct Hcar Hp Hd Hleb Hr Hge Hspan.
  unfold validate_book_car.
  rewrite Hcity, Hpd, Hrd, Ha. cbn [res_bind safe_int]. rewrite Hint, Hct.
  cbn [res_bind]. rewrite (city_passes _ Hcityok).
  rewrite (strptime_truthy _ _ Hd), (nonempty_truthy _ Hne).
  cbn [text default id andb].
  rewrite (isvalid_date_parsed _ _ Hp), (isvalid_date_parsed _ _ Hr).
  cbn [res_bind negb or_continue]. rewrite Hd. cbn [res_bind]. rewrite Hleb.
  cbn [res_bind]. rewrite Hp, Hr. cbn [res_bind]. rewrite Hge. cbn [res_bind].
  unfold get_day_difference. rewrite Hp, Hr. cbn [res_bind].
  replace (30 <? _) with false by lia. cbn [res_bind].
  replace (age <? 18) with false by lia. cbn [res_bind].
  assert (truthy (Some ct) = true) as -> by by destruct ct.
  rewrite Hcar. reflexivity.
Qed.

(** The car validator answers valid exactly when the four slots after
    the city are filled, the city is not filled or is a supported city,
    the pickup date is a YYYY-MM-DD date after today, the parser reads
    both dates and puts the pickup date before the return date, at most
    thirty days apart, the driver is 18 or older and the car type is one
    of the nine known names. *)
Theorem validate_book_car_valid_iff m :
  (∃ vr, validate_book_car today m = Ok vr ∧ isValid vr = true)
  ↔ ∃ city pd rd atext age ct p r d,
      slot_text m "PickUpCity" = Ok city
      ∧ (truthy city = true → isvalid_city (text city) = true)
      ∧ slot_text m "PickUpDate" = Ok (Some pd)
      ∧ slot_text m "ReturnDate" = Ok (Some rd)
      ∧ rd ≠ ""
      ∧ slot_text m "DriverAge" = Ok (Some atext)
      ∧ py_int atext = Ok age
      ∧ 18 ≤ age
      ∧ slot_text m "CarType" = Ok (Some ct)
      ∧ isvalid_car_type ct = true
      ∧ parse pd = Ok p
      ∧ strptime_Ymd pd = Ok d
      ∧ date_leb d today = false
      ∧ parse rd = Ok r
      ∧ dt_ge p r = Ok false
      ∧ Z.abs (toordinal (dt_date p) - toordinal (dt_date r)) ≤ 30.
Proof.
  split.
  - intros (vr & Hvr & Hvalid). by apply (validate_book_car_valid_inv m vr).
  - intros (city & pd & rd & atext & age & ct & p & r & d & H1 & H2 & H3 & H4 & H5
            & H6 & H7 & H8 & H9 & H10 & H11 & H12 & H13 & H14 & H15 & H16).
    exists valid_result. split; [ | reflexivity].
    by apply (validate_book_car_ok m city pd rd atext age ct p r d).
Qed.

End ValidVerdicts.

(** ** The handlers *)

(** Integers up to 400 convert to a double. *)
Lemma float_of_int_small z : 0 ≤ z ≤ 400 → ∃ f, float_of_int z = Ok f.
Proof.
  intros Hz.
  assert (forallb (fun n => match float_of_int (Z.of_nat n) with
                            | Ok _ => true
                            | Raise _ => false
                            end) (seq 0 401) = true) as Hall
      by (vm_compute; reflexivity).
  rewrite forallb_forall in Hall. specialize (Hall (Z.to_nat z)).
  rewrite Z2Nat.id in Hall by lia.
  destruct (float_of_int z) as [f | ]; [by eexists | ].
  discriminate Hall. apply in_seq. lia.
Qed.

Lemma generate_car_price_in_range city days age car_type :
  isvalid_city city = true →
  0 ≤ days ≤ 30 →
  ∃ price, generate_car_price city days age car_type = Ok price.
Proof.
  intros Hcity Hdays.
  destruct (car_type_rank_total car_type) as (rank & Hrank & Hb).
  pose proof (location_cost_supported _ Hcity) as Hcost.
  unfold generate_car_price. rewrite Hrank. cbn [res_bind].
  destruct (age <? 25); cbn [py_mul py_add res_bind]; [ | by eexists].
  destruct (float_of_int_small (rank * 50) ltac:(lia)) as [f1 ->]. cbn [res_bind].
  destruct (float_of_int_small (100 + location_cost city) ltac:(lia)) as [f2 ->].
  cbn [res_bind].
  destruct (float_of_int_small days ltac:(lia)) as [f3 ->]. cbn [res_bind].
  by eexists.
Qed.

(** A car rental in a supported city for at most thirty days has a
    price, whatever the age of the driver and the car type: the
    conversions to [float] of the price for a driver under 25 stay in
    range. *)
Theorem generate_car_price_validated city days age car_type :
  isvalid_city city = true →
  0 ≤ days ≤ 30 →
  ∃ price, generate_car_price city days age car_type = Ok price.
Proof. apply generate_car_price_in_range. Qed.

Lemma generate_car_price_validated_witness :
  ∃ price, generate_car_price "Seattle" 7 21 "Minivan" = Ok price.
Proof.
  apply (generate_car_price_validated "Seattle" 7 21 "Minivan");
    [vm_compute; reflexivity | lia].
Defined.

Section Handlers.

Context {DU : Dateutil}.
Variable today : date.

(** The car handler on a turn whose five slots are filled and pass every
    check of the validator, in a dialog code hook or not: the rental is
    priced, the price is stored in the session attributes, and the
    directive is Delegate when the confirmation state is 'Denied' or
    'None', Close with the intent marked Confirmed and Fulfilled when it
    is 'Confirmed', and nothing for any other confirmation state. *)
Theorem book_car_valid req m city pd rd atext age ct p r d :
  slots (sessionState_intent (sessionState req)) = Some m →
  slot_text m "PickUpCity" = Ok (Some city) →
  isvalid_city city = true →
  slot_text m "PickUpDate" = Ok (Some pd) →
  slot_text m "ReturnDate" = Ok (Some rd) →
  rd ≠ "" →
  slot_text m "DriverAge" = Ok (Some atext) →
  py_int atext = Ok age →
  18 ≤ age →
  slot_text m "CarType" = Ok (Some ct) →
  isvalid_car_type ct = true →
  parse pd = Ok p →
  strptime_Ymd pd = Ok d →
  date_leb d today = false →
  parse rd = Ok r →
  dt_ge p r = Ok false →
  Z.abs (toordinal (dt_date p) - toordinal (dt_date r)) ≤ 30 →
  ∃ price,
    generate_car_price city
      (Z.abs (toordinal (dt_date p) - toordinal (dt_date r))) age ct = Ok price
    ∧ book_car today req =
        let intent := sessionState_intent (sessionState req) in
        let session_attributes :=
          with_price price (default ∅ (sessionAttributes (sessionState req))) in
        if String.eqb (confirmationState intent) "Denied" then
          Ok (Some (delegate session_attributes ∅ intent "Confirm hotel reservation"))
        else if String.eqb (confirmationState intent) "None" then
          Ok (Some (delegate session_attributes ∅ intent "Confirm hotel reservation"))
        else if String.eqb (confirmationState intent) "Confirmed" then
          Ok (Some (close session_attributes ∅ "Fulfilled" (fulfilled intent)
                      car_success_message))
        else Ok None.
Proof.
  intros Hm Hcity Hcityok Hpd Hrd Hne Ha Hint Hage Hct Hcar Hp Hd Hleb Hr Hge Hspan.
  destruct (generate_car_price_in_range city
              (Z.abs (toordinal (dt_date p) - toordinal (dt_date r))) age ct Hcityok
              ltac:(lia)) as [price Hprice].
  exists price. split; [exact Hprice | ].
  assert (validate_book_car today m = Ok valid_result) as Hvr.
  { apply (validate_book_car_ok today m (Some city) pd rd atext age ct p r d);
      try done. }
  assert (atext ≠ "") as Hane by (intros ->; discriminate Hint).
  unfold book_car, intent_slots. rewrite Hm. cbn [res_bind].
  rewrite Hcity, Hpd, Hrd, Ha, Hct. cbn [res_bind].
  rewrite Hvr. cbn [res_bind valid_result isValid negb].
  assert ((if (invocationSource req =? "DialogCodeHook")%string
           then Ok None else Ok None) = Ok (@None response)) as ->
      by by destruct (_ =? _)%string.
  cbn [res_bind].
  rewrite (isvalid_city_truthy _ Hcityok), (strptime_truthy _ _ Hd),
    (nonempty_truthy _ Hne), (nonempty_truthy _ Hane).
  assert (truthy (Some ct) = true) as -> by by destruct ct.
  cbn [andb text default id]. unfold get_day_difference. rewrite Hp, Hr.
  cbn [res_bind]. rewrite Hint. cbn [res_bind]. rewrite Hprice. reflexivity.
Qed.

(** The hotel handler returns no directive at all when the validator
    answers valid and either the location is not filled or the
    confirmation state is neither 'None' nor 'Confirmed' (for one,
    'Denied'). *)
Theorem book_hotel_no_directive req m vr :
  slots (sessionState_intent (sessionState req)) = Some m →
  validate_hotel today m = Ok vr →
  isValid vr = true →
  slot_text m "Location" = Ok None
  ∨ (confirmationState (sessionState_intent (sessionState req)) ≠ "None"
     ∧ confirmationState (sessionState_intent (sessionState req)) ≠ "Confirmed") →
  book_hotel today req = Ok None.
Proof.
  intros Hm Hvr Hvalid Hcase.
  destruct (validate_hotel_valid_inv today m vr Hvr Hvalid)
    as (loc & cin & ntext & n & rt & d & Hloc & Hcin & Hnt & Hn & Hrt
        & Hcity & Hok & Hd & Hleb & Hrange & Hroom).
  destruct loc as [loc | ].
  - destruct Hcase as [Hnone | [Hc1 Hc2]]; [congruence | ].
    destruct (book_hotel_valid today req m loc cin ntext n rt d)
      as (price & _ & ->); try done; [by apply Hcity | ].
    cbv zeta. apply String.eqb_neq in Hc1, Hc2. by rewrite Hc1, Hc2.
  - unfold book_hotel, intent_slots. rewrite Hm. cbn [res_bind]. rewrite Hvr.
    cbn [res_bind]. rewrite Hvalid. cbn [negb].
    rewrite Hloc, Hcin, Hnt, Hrt. cbn [res_bind safe_int]. rewrite Hn. reflexivity.
Qed.

End Handlers.

Lemma book_car_valid_witness :
  ∃ price,
    generate_car_price "Chicago"
      (Z.abs (toordinal (mk_date 2024 5 1) - toordinal (mk_date 2024 5 5))) 30 "luxury"
    = Ok price
    ∧ book_car (DU := numeric_dateutil) sample_today (sample_car_turn "Confirmed") =
        let intent := sessionState_intent (sessionState (sample_car_turn "Confirmed")) in
        let session_attributes :=
          with_price price
            (default ∅ (sessionAttributes (sessionState (sample_car_turn "Confirmed")))) in
        if String.eqb (confirmationState intent) "Denied" then
          Ok (Some (delegate session_attributes ∅ intent "Confirm hotel reservation"))
        else if String.eqb (confirmationState intent) "None" then
          Ok (Some (delegate session_attributes ∅ intent "Confirm hotel reservation"))
        else if String.eqb (confirmationState intent) "Confirmed" then
          Ok (Some (close session_attributes ∅ "Fulfilled" (fulfilled intent)
                      car_success_message))
        else Ok None.
Proof.
  apply (book_car_valid (DU := numeric_dateutil) sample_today
           (sample_car_turn "Confirmed")
           (car_slots (filled "Chicago") (filled "2024-05-01") (filled "2024-05-05")
              (filled "30") (filled "luxury"))
           "Chicago" "2024-05-01" "2024-05-05" "30" 30 "luxury"
           (mk_date 2024 5 1) (mk_date 2024 5 5) (mk_date 2024 5 1));
    try (vm_compute; reflexivity); done.
Defined.

Lemma book_hotel_no_directive_witness :
  book_hotel (DU := numeric_dateutil) sample_today (sample_hotel_turn "Denied") = Ok None.
Proof.
  apply (book_hotel_no_directive (DU := numeric_dateutil) sample_today
           (sample_hotel_turn "Denied")
           (hotel_slots (filled "Chicago") (filled "2024-05-01") (filled "3") (filled "King"))
           valid_result).
  - reflexivity.
  - vm_compute; reflexivity.
  - reflexivity.
  - right. split; discriminate.
Defined.

(** ** Order of the checks, and what escapes them *)

(** A [let*] chain raises as soon as one of its steps does. *)
Ltac raise_through :=
  repeat match goal with
    | |- raises (Raise _) => by eexists
    | |- raises (res_bind (Raise _) _) => by eexists
    | |- raises (res_bind (res_bind (Raise _) _) _) => by eexists
    | |- raises (res_bind ?c _) => destruct c; cbn [res_bind]; [ | by eexists]
    end.

Lemma slot_text_missing (m : gmap string (option slot)) key :
  m !! key = None → slot_text m key = Raise KeyError.
Proof. intros H. unfold slot_text, getitem. by rewrite H. Qed.

Lemma slot_text_insert_filled key v (m : gmap string (option slot)) :
  slot_text (<[key := Some (scalar_slot v)]> m) key = Ok (Some v).
Proof. unfold slot_text, getitem. by rewrite lookup_insert_eq. Qed.

Lemma slot_text_insert_ne key key' v (m : gmap string (option slot)) :
  key ≠ key' → slot_text (<[key := v]> m) key' = slot_text m key'.
Proof. intros Hne. unfold slot_text, getitem. by rewrite lookup_insert_ne. Qed.

Section Order.

Context {DU : Dateutil}.
Variable today : date.

(** Both validators raise when the slot mapping lacks one of the keys
    they read: nothing guards [slots[key]]. *)
Theorem validators_raise_on_missing_key (m : gmap string (option slot)) key :
  m !! key = None →
  (key ∈ ["Location"; "CheckInDate"; "Nights"; "RoomType"] →
   raises (validate_hotel today m))
  ∧ (key ∈ ["PickUpCity"; "PickUpDate"; "ReturnDate"; "DriverAge"; "CarType"] →
     raises (validate_book_car today m)).
Proof.
  intros Hkey%slot_text_missing. split; intros Hin.
  - unfold validate_hotel.
    repeat (apply elem_of_cons in Hin as [-> | Hin];
            [rewrite Hkey; raise_through | ]).
    by apply elem_of_nil in Hin.
  - unfold validate_book_car.
    repeat (apply elem_of_cons in Hin as [-> | Hin];
            [rewrite Hkey; raise_through | ]).
    by apply elem_of_nil in Hin.
Qed.

(** The numbers are converted before any slot is checked: a Nights value
    that [int] rejects makes the hotel validator raise, whatever the
    location is, and so does a DriverAge value for the car validator. *)
Theorem validators_raise_on_bad_number m :
  (∀ loc cin s e,
     slot_text m "Location" = Ok loc →
     slot_text m "CheckInDate" = Ok cin →
     slot_text m "Nights" = Ok (Some s) →
     py_int s = Raise e →
     validate_hotel today m = Raise e)
  ∧ (∀ city pd rd s e,
       slot_text m "PickUpCity" = Ok city →
       slot_text m "PickUpDate" = Ok pd →
       slot_text m "ReturnDate" = Ok rd →
       slot_text m "DriverAge" = Ok (Some s) →
       py_int s = Raise e →
       validate_book_car today m = Raise e).
Proof.
  split.
  - intros loc cin s e Hloc Hcin Hn Hint. unfold validate_hotel.
    rewrite Hloc, Hcin, Hn. cbn [res_bind safe_int]. by rewrite Hint.
  - intros city pd rd s e Hcity Hpd Hrd Ha Hint. unfold validate_book_car.
    rewrite Hcity, Hpd, Hrd, Ha. cbn [res_bind safe_int]. by rewrite Hint.
Qed.

(** The city comes first: an unsupported location is what the hotel
    validator reports, and an unsupported pickup city what the car
    validator reports, whatever the other slots hold, as long as they
    can be read. *)
Theorem unsupported_city_reported_first m :
  (∀ loc cin nights rt,
     slot_text m "Location" = Ok (Some loc) →
     isvalid_city loc = false →
     slot_text m "CheckInDate" = Ok cin →
     (let* v := slot_text m "Nights" in safe_int v) = Ok nights →
     slot_text m "RoomType" = Ok rt →
     reports (validate_hotel today m) "Location")
  ∧ (∀ city pd rd age ct,
       slot_text m "PickUpCity" = Ok (Some city) →
       city ≠ "" →
       isvalid_city city = false →
       slot_text m "PickUpDate" = Ok pd →
       slot_text m "ReturnDate" = Ok rd →
       (let* v := slot_text m "DriverAge" in safe_int v) = Ok age →
       slot_text m "CarType" = Ok ct →
       reports (validate_book_car today m) "PickUpCity").
Proof.
  split.
  - intros loc cin nights rt Hloc Hbad Hcin Hn Hrt. unfold validate_hotel.
    rewrite Hloc, Hcin. cbn [res_bind]. rewrite Hn, Hrt. cbn [res_bind or_continue].
    rewrite Hbad. cbn [negb res_bind]. eexists. by split.
  - intros city pd rd age ct Hcity Hne Hbad Hpd Hrd Ha Hct. unfold validate_book_car.
    rewrite Hcity, Hpd, Hrd. cbn [res_bind]. rewrite Ha, Hct. cbn [res_bind].
    rewrite (nonempty_truthy _ Hne). cbn [text default id]. rewrite Hbad.
    cbn [negb andb]. eexists. by split.
Qed.

(** A check-in date that is a YYYY-MM-DD date not after today is
    reported as CheckInDate once the location passes, whatever the
    nights and the room type are. *)
Theorem checkin_not_after_today_reported m loc cin nights rt dt d :
  slot_text m "Location" = Ok loc →
  (∀ c, loc = Some c → isvalid_city c = true) →
  slot_text m "CheckInDate" = Ok (Some cin) →
  (let* v := slot_text m "Nights" in safe_int v) = Ok nights →
  slot_text m "RoomType" = Ok rt →
  parse cin = Ok dt →
  strptime_Ymd cin = Ok d →
  date_leb d today = true →
  reports (validate_hotel today m) "CheckInDate".
Proof.
  intros Hloc Hcity Hcin Hn Hrt Hp Hd Hleb. unfold validate_hotel.
  rewrite Hloc, Hcin. cbn [res_bind]. rewrite Hn, Hrt. cbn [res_bind].
  assert (match loc with
          | Some city =>
              if negb (isvalid_city city)
              then Ok (Some (build_validation_result false "Location"
                               (unsupported_city city)))
              else Ok None
          | None => Ok None
          end = Ok None) as ->.
  { destruct loc as [c | ]; [ | done]. by rewrite (Hcity c eq_refl). }
  cbn [or_continue res_bind]. rewrite (isvalid_date_parsed _ _ Hp).
  cbn [res_bind negb]. rewrite Hd. cbn [res_bind]. rewrite Hleb. cbn [res_bind].
  eexists. by split.
Qed.

(** A rental of more than thirty days is reported as ReturnDate once the
    city and the two dates pass, whatever the driver age and the car
    type are. *)
Theorem span_over_thirty_days_reported m city pd rd a age ct p r d :
  slot_text m "PickUpCity" = Ok city →
  (truthy city = true → isvalid_city (text city) = true) →
  slot_text m "PickUpDate" = Ok (Some pd) →
  slot_text m "ReturnDate" = Ok (Some rd) →
  slot_text m "DriverAge" = Ok a →
  safe_int a = Ok age →
  slot_text m "CarType" = Ok ct →
  parse pd = Ok p →
  strptime_Ymd pd = Ok d →
  date_leb d today = false →
  rd ≠ "" →
  parse rd = Ok r →
  dt_ge p r = Ok false →
  30 < Z.abs (toordinal (dt_date p) - toordinal (dt_date r)) →
  reports (validate_book_car today m) "ReturnDate".
Proof.
  intros Hcity Hcityok Hpd Hrd Ha Hage Hct Hp Hd Hleb Hne Hr Hge Hspan.
  unfold validate_book_car.
  rewrite Hcity, Hpd, Hrd, Ha. cbn [res_bind]. rewrite Hage, Hct. cbn [res_bind].
  rewrite (city_passes _ Hcityok).
  rewrite (strptime_truthy _ _ Hd), (nonempty_truthy _ Hne).
  cbn [text default id andb].
  rewrite (isvalid_date_parsed _ _ Hp), (isvalid_date_parsed _ _ Hr).
  cbn [res_bind negb or_continue]. rewrite Hd. cbn [res_bind]. rewrite Hleb.
  cbn [res_bind]. rewrite Hp, Hr. cbn [res_bind]. rewrite Hge. cbn [res_bind].
  unfold get_day_difference. rewrite Hp, Hr. cbn [res_bind].
  replace (30 <? _) with true by lia. cbn [res_bind]. eexists. by split.
Qed.

End Order.

Lemma validators_raise_on_missing_key_witness :
  raises (validate_hotel (DU := numeric_dateutil) sample_today
            (<["Location" := filled "Chicago"]> ∅))
  ∧ raises (validate_book_car (DU := numeric_dateutil) sample_today
              (<["ReturnDate" := filled "2024-05-05"]>
                 (<["PickUpDate" := filled "2024-05-01"]>
                    (<["PickUpCity" := filled "Boston"]> ∅)))).
Proof.
  split.
  - destruct (validators_raise_on_missing_key (DU := numeric_dateutil) sample_today
                (<["Location" := filled "Chicago"]> ∅) "CheckInDate") as [H _];
      [vm_compute; reflexivity | ].
    apply H. in_list.
  - destruct (validators_raise_on_missing_key (DU := numeric_dateutil) sample_today
                (<["ReturnDate" := filled "2024-05-05"]>
                   (<["PickUpDate" := filled "2024-05-01"]>
                      (<["PickUpCity" := filled "Boston"]> ∅)))
                "DriverAge") as [_ H]; [vm_compute; reflexivity | ].
    apply H. in_list.
Defined.

Lemma validators_raise_on_bad_number_witness :
  validate_hotel (DU := numeric_dateutil) sample_today
    (hotel_slots (filled "Atlantis") (filled "2024-05-01") (filled "three") (filled "King"))
  = Raise ValueError
  ∧ validate_book_car (DU := numeric_dateutil) sample_today
      (car_slots (filled "Atlantis") (filled "2024-05-01") (filled "2024-05-05")
         (filled "17.5") (filled "luxury"))
    = Raise ValueError.
Proof.
  split.
  - apply (proj1 (validators_raise_on_bad_number (DU := numeric_dateutil) sample_today
                    (hotel_slots (filled "Atlantis") (filled "2024-05-01")
                       (filled "three") (filled "King")))
             (Some "Atlantis") (Some "2024-05-01") "three" ValueError);
      vm_compute; reflexivity.
  - apply (proj2 (validators_raise_on_bad_number (DU := numeric_dateutil) sample_today
                    (car_slots (filled "Atlantis") (filled "2024-05-01")
                       (filled "2024-05-05") (filled "17.5") (filled "luxury")))
             (Some "Atlantis") (Some "2024-05-01") (Some "2024-05-05") "17.5" ValueError);
      vm_compute; reflexivity.
Defined.

Lemma unsupported_city_reported_first_witness :
  reports (validate_hotel (DU := numeric_dateutil) sample_today
             (hotel_slots (filled "Atlantis") (filled "someday") (filled "99") None))
    "Location"
  ∧ reports (validate_book_car (DU := numeric_dateutil) sample_today
               (backwards_car_slots "Atlantis")) "PickUpCity".
Proof.
  split.
  - apply (proj1 (unsupported_city_reported_first (DU := numeric_dateutil) sample_today
                    (hotel_slots (filled "Atlantis") (filled "someday") (filled "99") None))
             "Atlantis" (Some "someday") (Some 99) None);
      vm_compute; reflexivity.
  - apply (proj2 (unsupported_city_reported_first (DU := numeric_dateutil) sample_today
                    (backwards_car_slots "Atlantis"))
             "Atlantis" (Some "2024-05-10") (Some "2024-05-01") (Some 17)
             (Some "spaceship"));
      try (vm_compute; reflexivity); done.
Defined.

Lemma checkin_not_after_today_reported_witness :
  reports (validate_hotel (DU := numeric_dateutil) (mk_date 2024 5 1)
             (hotel_slots (filled "Chicago") (filled "2024-05-01") (filled "3")
                (filled "King"))) "CheckInDate".
Proof.
  apply (checkin_not_after_today_reported (DU := numeric_dateutil) (mk_date 2024 5 1)
           (hotel_slots (filled "Chicago") (filled "2024-05-01") (filled "3")
              (filled "King"))
           (Some "Chicago") "2024-05-01" (Some 3) (Some "King")
           (mk_date 2024 5 1) (mk_date 2024 5 1));
    [ vm_compute; reflexivity
    | intros c [= <-]; vm_compute; reflexivity
    | vm_compute; reflexivity ..].
Defined.

Lemma span_over_thirty_days_reported_witness :
  reports (validate_book_car (DU := numeric_dateutil) sample_today
             (car_slots (filled "Chicago") (filled "2024-05-01") (filled "2024-07-01")
                (filled "30") (filled "luxury"))) "ReturnDate".
Proof.
  apply (span_over_thirty_days_reported (DU := numeric_dateutil) sample_today
           (car_slots (filled "Chicago") (filled "2024-05-01") (filled "2024-07-01")
              (filled "30") (filled "luxury"))
           (Some "Chicago") "2024-05-01" "2024-07-01" (Some "30") (Some 30)
           (Some "luxury") (mk_date 2024 5 1) (mk_date 2024 7 1) (mk_date 2024 5 1));
    try (vm_compute; reflexivity); done.
Defined.

(** ** The dispatcher and the shape of the responses *)

Section Responses.

Context {DU : Dateutil}.
Variable today : date.

(** On a first turn (neither Location nor PickUpCity filled, no active
    context) the dispatcher elicits Location for 'BookHotel' and
    PickUpCity for any other intent name; the intent it returns is in
    progress, not confirmed, and without slots, and the response has no
    session attributes, no contexts and no message. *)
Theorem dispatch_first_turn req m :
  slots (sessionState_intent (sessionState req)) = Some m →
  default None (m !! "Location") = None →
  default None (m !! "PickUpCity") = None →
  activeContexts (sessionState req) = None ∨ activeContexts (sessionState req) = Some [] →
  ∃ resp,
    dispatch today req = Ok (Some resp)
    ∧ r_dialogAction (r_sessionState resp)
      = {| da_type := "ElicitSlot";
           slotToElicit :=
             Some (if String.eqb (name (sessionState_intent (sessionState req))) "BookHotel"
                   then "Location" else "PickUpCity") |}
    ∧ r_intent (r_sessionState resp)
      = {| name := name (sessionState_intent (sessionState req));
           confirmationState := "None";
           state := Some "InProgress";
           slots := None |}
    ∧ r_sessionAttributes (r_sessionState resp) = None
    ∧ r_activeContexts (r_sessionState resp) = None
    ∧ r_messages resp = None.
Proof.
  intros Hm Hloc Hcity Hctx. eexists. split.
  - unfold dispatch, intent_slots. rewrite Hm. cbn [res_bind]. rewrite Hloc, Hcity.
    rewrite !bool_decide_eq_false_2 by (intros [x Hx]; discriminate Hx).
    cbn [orb]. destruct Hctx as [-> | ->]; reflexivity.
  - by repeat split.
Qed.

(** Whatever the two handlers return, the directive is ElicitSlot,
    Delegate or Close (never ConfirmIntent), the intent keeps its name,
    and there is exactly one active context, named 'intentContext', that
    lives 600 seconds and one turn. *)
Theorem handler_response_shape req resp :
  book_hotel today req = Ok (Some resp) ∨ book_car today req = Ok (Some resp) →
  da_type (r_dialogAction (r_sessionState resp)) ∈ ["ElicitSlot"; "Delegate"; "Close"]
  ∧ name (r_intent (r_sessionState resp)) = name (sessionState_intent (sessionState req))
  ∧ ∃ attributes,
      r_activeContexts (r_sessionState resp)
      = Some [{| ctx_name := "intentContext";
                 contextAttributes := attributes;
                 timeToLive := {| timeToLiveInSeconds := 600; turnsToLive := 1 |} |}].
Proof.
  intros [H | H].
  - unfold book_hotel in H. bind_inv H as m Em. bind_inv H as vr Evr.
    destruct (negb (isValid vr)).
    + destruct (violatedSlot vr), (message_content vr); try discriminate H.
      injection H as <-. split; [in_list | ]. split; [reflexivity | by eexists].
    + bind_inv H as loc Eloc. bind_inv H as cin Ecin. bind_inv H as n En.
      bind_inv H as rt Ert.
      destruct (truthy loc && truthy cin && truthy_int n && truthy rt);
        [ | discriminate H].
      bind_inv H as price Eprice.
      destruct (_ =? "None")%string.
      { injection H as <-. split; [in_list | ]. split; [reflexivity | by eexists]. }
      destruct (_ =? "Confirmed")%string; [ | discriminate H].
      injection H as <-. split; [in_list | ]. split; [reflexivity | by eexists].
  - unfold book_car in H.
    bind_inv H as m Em. bind_inv H as city Ecity. bind_inv H as pd Epd.
    bind_inv H as rd Erd. bind_inv H as a Ea. bind_inv H as ct Ect.
    bind_inv H as hook Ehook.
    destruct hook as [r | ].
    + injection H as ->.
      destruct (_ =? "DialogCodeHook")%string; [ | discriminate Ehook].
      bind_inv Ehook as vr Evr.
      destruct (negb (isValid vr)); [ | discriminate Ehook].
      destruct (violatedSlot vr), (message_content vr); try discriminate Ehook.
      destruct (_ && _); injection Ehook as <-;
        (split; [in_list | ]; split; [reflexivity | by eexists]).
    + destruct (truthy city && truthy pd && truthy rd && truthy a && truthy ct);
        [ | discriminate H].
      bind_inv H as days Edays. bind_inv H as age Eage. bind_inv H as price Eprice.
      destruct (_ =? "Denied")%string.
      { injection H as <-. split; [in_list | ]. split; [reflexivity | by eexists]. }
      destruct (_ =? "None")%string.
      { injection H as <-. split; [in_list | ]. split; [reflexivity | by eexists]. }
      destruct (_ =? "Confirmed")%string; [ | discriminate H].
      injection H as <-. split; [in_list | ]. split; [reflexivity | by eexists].
Qed.

(** A failure of the hotel validator leaves every slot but the violated
    one as it was, and the confirmation state and the state of the
    intent untouched. *)
Theorem book_hotel_elicit_frame req m vr violated :
  slots (sessionState_intent (sessionState req)) = Some m →
  validate_hotel today m = Ok vr →
  isValid vr = false →
  violatedSlot vr = Some violated →
  ∃ resp m',
    book_hotel today req = Ok (Some resp)
    ∧ slots (r_intent (r_sessionState resp)) = Some m'
    ∧ m' !! violated = Some None
    ∧ (∀ key, key ≠ violated → m' !! key = m !! key)
    ∧ confirmationState (r_intent (r_sessionState resp))
      = confirmationState (sessionState_intent (sessionState req))
    ∧ state (r_intent (r_sessionState resp))
      = state (sessionState_intent (sessionState req)).
Proof.
  intros Hm Hvr Hinvalid Hv.
  destruct (validate_hotel_shape today m vr Hvr) as [-> | (_ & v' & msg & Hv' & Hmsg)];
    [discriminate Hinvalid | ].
  eexists _, _. split.
  - unfold book_hotel, intent_slots. rewrite Hm. cbn [res_bind]. rewrite Hvr.
    cbn [res_bind]. rewrite Hinvalid, Hv, Hmsg. reflexivity.
  - split; [reflexivity | ]. split; [apply lookup_insert_eq | ].
    split; [ | by split]. intros key Hne. by apply lookup_insert_ne.
Qed.

(** The intent the carry-over returns has the three slots PickUpCity,
    PickUpDate and ReturnDate and no other key, whatever slots the
    payload had; the car validator, which reads DriverAge and CarType as
    well, raises [KeyError] on that slot set. *)
Theorem carryover_slot_set req m ctx rest attrs city cin ntext n rd :
  slots (sessionState_intent (sessionState req)) = Some m →
  default None (m !! "Location") = None →
  default None (m !! "PickUpCity") = None →
  activeContexts (sessionState req) = Some (ctx :: rest) →
  sessionAttributes (sessionState req) = Some attrs →
  contextAttributes ctx !! "Location" = Some city →
  contextAttributes ctx !! "CheckInDate" = Some cin →
  contextAttributes ctx !! "Nights" = Some ntext →
  py_int ntext = Ok n →
  add_days cin n = Ok rd →
  ∃ resp m',
    dispatch today req = Ok (Some resp)
    ∧ slots (r_intent (r_sessionState resp)) = Some m'
    ∧ dom m' = {[ "PickUpCity"; "PickUpDate"; "ReturnDate" ]}
    ∧ slot_text m' "PickUpCity" = Ok (Some city)
    ∧ slot_text m' "PickUpDate" = Ok (Some cin)
    ∧ slot_text m' "ReturnDate" = Ok (Some rd)
    ∧ validate_book_car today m' = Raise KeyError
    ∧ r_sessionAttributes (r_sessionState resp) = Some attrs.
Proof.
  intros Hm Hloc Hcity Hctx Hattrs Hl Hc Hn Hint Hadd.
  eexists _, _. split.
  - unfold dispatch, intent_slots. rewrite Hm. cbn [res_bind].
    rewrite Hloc, Hcity.
    rewrite !bool_decide_eq_false_2 by (intros [x Hx]; discriminate Hx).
    cbn [orb]. rewrite Hctx, Hattrs. cbn [res_bind].
    unfold getitem. rewrite Hc, Hn. cbn [res_bind]. rewrite Hint. cbn [res_bind].
    rewrite Hadd. cbn [res_bind contextAttributes]. rewrite Hl. cbn [res_bind].
    reflexivity.
  - cbn [confirm_intent r_sessionState r_intent set_slots slots r_sessionAttributes].
    split; [reflexivity | ]. split.
    { rewrite !dom_insert_L, dom_empty_L. set_solver. }
    split; [by rewrite 2!slot_text_insert_ne, slot_text_insert_filled | ].
    split; [by rewrite slot_text_insert_ne, slot_text_insert_filled | ].
    split; [by rewrite slot_text_insert_filled | ].
    split; [ | reflexivity].
    unfold validate_book_car.
    rewrite 2!(slot_text_insert_ne _ "PickUpCity"), slot_text_insert_filled by done.
    cbn [res_bind].
    rewrite (slot_text_insert_ne _ "PickUpDate"), slot_text_insert_filled by done.
    cbn [res_bind]. rewrite slot_text_insert_filled. cbn [res_bind].
    rewrite 3!(slot_text_insert_ne _ "DriverAge") by done.
    by rewrite (slot_text_missing ∅ "DriverAge") by apply lookup_empty.
Qed.

End Responses.

Lemma validate_hotel_violated_slot_witness :
  ∃ violated,
    violatedSlot (build_validation_result false "Location" (unsupported_city "Atlantis"))
    = Some violated
    ∧ violated ∈ ["Location"; "CheckInDate"; "Nights"; "RoomType"].
Proof.
  apply (validate_hotel_violated_slot (DU := numeric_dateutil) sample_today
           (hotel_slots (filled "Atlantis") None None None));
    [vm_compute; reflexivity | reflexivity].
Defined.

Lemma validate_book_car_violated_slot_witness :
  ∃ violated,
    violatedSlot (build_validation_result false "PickUpCity" (unsupported_city "Atlantis"))
    = Some violated
    ∧ violated ∈ ["PickUpCity"; "PickUpDate"; "ReturnDate"; "DriverAge"; "CarType"].
Proof.
  apply (validate_book_car_violated_slot (DU := numeric_dateutil) sample_today
           (backwards_car_slots "Atlantis"));
    [vm_compute; reflexivity | reflexivity].
Defined.

Lemma dispatch_first_turn_witness :
  ∃ resp,
    dispatch (DU := numeric_dateutil) sample_today
      (turn "BookHotel" "Confirmed" "DialogCodeHook" ∅ None (Some sample_attributes))
    = Ok (Some resp)
    ∧ r_dialogAction (r_sessionState resp)
      = {| da_type := "ElicitSlot";
           slotToElicit := Some (if String.eqb "BookHotel" "BookHotel"
                                 then "Location" else "PickUpCity") |}
    ∧ r_intent (r_sessionState resp)
      = {| name := "BookHotel";
           confirmationState := "None";
           state := Some "InProgress";
           slots := None |}
    ∧ r_sessionAttributes (r_sessionState resp) = None
    ∧ r_activeContexts (r_sessionState resp) = None
    ∧ r_messages resp = None.
Proof.
  apply (dispatch_first_turn (DU := numeric_dateutil) sample_today
           (turn "BookHotel" "Confirmed" "DialogCodeHook" ∅ None (Some sample_attributes))
           ∅);
    [reflexivity | vm_compute; reflexivity | vm_compute; reflexivity | by left].
Defined.

Lemma handler_response_shape_witness :
  da_type (r_dialogAction (r_sessionState sample_hotel_delegate))
  ∈ ["ElicitSlot"; "Delegate"; "Close"]
  ∧ name (r_intent (r_sessionState sample_hotel_delegate))
    = name (sessionState_intent (sessionState (sample_hotel_turn "None")))
  ∧ ∃ attributes,
      r_activeContexts (r_sessionState sample_hotel_delegate)
      = Some [{| ctx_name := "intentContext";
                 contextAttributes := attributes;
                 timeToLive := {| timeToLiveInSeconds := 600; turnsToLive := 1 |} |}].
Proof.
  apply (handler_response_shape (DU := numeric_dateutil) sample_today
           (sample_hotel_turn "None") sample_hotel_delegate).
  left. vm_compute. reflexivity.
Defined.

Lemma book_hotel_elicit_frame_witness :
  ∃ resp m',
    book_hotel (DU := numeric_dateutil) sample_today unsupported_hotel_turn
    = Ok (Some resp)
    ∧ slots (r_intent (r_sessionState resp)) = Some m'
    ∧ m' !! "Location" = Some None
    ∧ (∀ key, key ≠ "Location" →
              m' !! key = hotel_slots (filled "Atlantis") None None None !! key)
    ∧ confirmationState (r_intent (r_sessionState resp))
      = confirmationState (sessionState_intent (sessionState unsupported_hotel_turn))
    ∧ state (r_intent (r_sessionState resp))
      = state (sessionState_intent (sessionState unsupported_hotel_turn)).
Proof.
  apply (book_hotel_elicit_frame (DU := numeric_dateutil) sample_today
           unsupported_hotel_turn (hotel_slots (filled "Atlantis") None None None)
           (build_validation_result false "Location" (unsupported_city "Atlantis"))
           "Location");
    [reflexivity | vm_compute; reflexivity | reflexivity | reflexivity].
Defined.

Lemma carryover_slot_set_witness :
  ∃ resp m',
    dispatch (DU := numeric_dateutil) sample_today carryover_turn = Ok (Some resp)
    ∧ slots (r_intent (r_sessionState resp)) = Some m'
    ∧ dom m' = {[ "PickUpCity"; "PickUpDate"; "ReturnDate" ]}
    ∧ slot_text m' "PickUpCity" = Ok (Some "Boston")
    ∧ slot_text m' "PickUpDate" = Ok (Some "2024-05-01")
    ∧ slot_text m' "ReturnDate" = Ok (Some "2024-05-05")
    ∧ validate_book_car (DU := numeric_dateutil) sample_today m' = Raise KeyError
    ∧ r_sessionAttributes (r_sessionState resp) = Some sample_attributes.
Proof.
  apply (carryover_slot_set (DU := numeric_dateutil) sample_today
           carryover_turn ∅ boston_context [] sample_attributes
           "Boston" "2024-05-01" "4" 4 "2024-05-05");
    vm_compute; reflexivity.
Defined.
